(** * GreenToGo: box accounting and billing guards of [core/models.py]

    A shallow embedding of the Django models [Plan], [Subscription],
    [Location], [LocationTag] and [LocationStockCount], with the database
    as explicit state and Python exceptions as outcomes. *)

From Stdlib Require Import ZArith String.
From stdpp Require Import base option list sorting gmap strings.

Local Open Scope string_scope.
Local Open Scope list_scope.
Local Open Scope Z_scope.

(** ** Python values kept in [_loaded_values] *)

Inductive value :=
  | VNone
  | VBool (b : bool)
  | VInt (z : Z)
  | VStr (s : string).

(** Python's [==] on these values; [bool] is a subclass of [int]. *)
Definition py_eq (a b : value) : bool :=
  match a, b with
  | VNone, VNone => true
  | VBool x, VBool y => Bool.eqb x y
  | VInt x, VInt y => Z.eqb x y
  | VBool x, VInt y | VInt y, VBool x => Z.eqb (if x then 1 else 0) y
  | VStr x, VStr y => String.eqb x y
  | _, _ => false
  end.

(** Truth value of a nullable [CharField]: [None] and [''] are false. *)
Definition truthy (s : option string) : bool :=
  match s with
  | Some s => negb (String.eqb s "")
  | None => false
  end.

(** ** Model instances *)

Module Plan.
Record t := mk {
  id : option nat;
  name : string;
  available : bool;
  amount : Z;
  number_of_boxes : Z;
  stripe_id : option string;
  _loaded_values : option (gmap string value)
}.

Definition of_option_string (s : option string) : value :=
  match s with Some s => VStr s | None => VNone end.

Definition of_option_nat (n : option nat) : value :=
  match n with Some n => VInt (Z.of_nat n) | None => VNone end.

(** [getattr(self, field_name)] on the model's fields. *)
Definition getattr (self : t) (field_name : string) : option value :=
  if String.eqb field_name "id" then Some (of_option_nat (id self))
  else if String.eqb field_name "name" then Some (VStr (name self))
  else if String.eqb field_name "available" then Some (VBool (available self))
  else if String.eqb field_name "amount" then Some (VInt (amount self))
  else if String.eqb field_name "number_of_boxes" then Some (VInt (number_of_boxes self))
  else if String.eqb field_name "stripe_id" then Some (of_option_string (stripe_id self))
  else None.

Definition field_names : list string :=
  ["id"; "name"; "available"; "amount"; "number_of_boxes"; "stripe_id"].

Definition set_stripe_id (self : t) (s : option string) : t :=
  mk (id self) (name self) (available self) (amount self)
     (number_of_boxes self) s (_loaded_values self).

Definition set_id (self : t) (i : option nat) : t :=
  mk i (name self) (available self) (amount self)
     (number_of_boxes self) (stripe_id self) (_loaded_values self).

Definition set_amount (self : t) (a : Z) : t :=
  mk (id self) (name self) (available self) a
     (number_of_boxes self) (stripe_id self) (_loaded_values self).

Definition set_loaded_values (self : t) (d : option (gmap string value)) : t :=
  mk (id self) (name self) (available self) (amount self)
     (number_of_boxes self) (stripe_id self) d.
End Plan.

Module Location.
Definition CHECKIN : string := "IN".
Definition CHECKOUT : string := "OUT".

(** [latitude] and [longitude] play no part in the accounting and are
    left out. *)
Record t := mk {
  id : nat;
  code : string;
  service : string;
  name : string;
  address : string
}.
End Location.

Module Subscription.
Record t := mk {
  id : nat;
  name : option string;
  user : nat;
  plan : option Plan.t;
  starts_at : Z;
  ends_at : option Z;
  stripe_id : option string;
  stripe_status : string;
  corporate_code : option nat
}.

Definition number_of_boxes (self : t) : Z :=
  match plan self with
  | Some p => Plan.number_of_boxes p
  | None => 0
  end.

Definition max_boxes (self : t) : Z := number_of_boxes self.

Definition set_stripe (self : t) (sid : option string) (status : string)
    (e : option Z) : t :=
  mk (id self) (name self) (user self) (plan self) (starts_at self)
     e sid status (corporate_code self).
End Subscription.

Module LocationTag.
(** A row of the tag table; [subscription] and [location] are the
    foreign keys, [created_at] is set when the row is inserted. *)
Record t := mk {
  subscription : nat;
  location : nat;
  created_at : Z
}.
End LocationTag.

Module LocationStockCount.
Record t := mk {
  location : nat;
  created_at : Z;
  count : Z
}.
End LocationStockCount.

(** The object handed over by the payment provider. *)
Module StripeSubscription.
Record t := mk {
  id : string;
  status : string;
  current_period_end : Z
}.
End StripeSubscription.

(** Calls sent to the payment provider. *)
Inductive StripeRequest :=
  | PlanRetrieve (stripe_id : option string)
  | PlanSave (stripe_id : option string) (name : string)
  | PlanCreate (name : string) (id : option string) (interval currency : string)
      (amount : Z).

Record Email := {
  template_name : string;
  context_subscription : Subscription.t
}.

(** ** Exceptions and outcomes *)

Inductive Exn :=
  | IndexError
  | KeyError (key : string)
  | AttributeError (attr : string)
  | CannotChangeException (model : Plan.t) (field : string)
  | SubscriptionUpdateException (subscription : Subscription.t)
      (stripe_subscription : StripeSubscription.t) (message : string)
  | StripeError (message : string)
  | IntegrityError
  | DataError
  | OverflowError
  | OSError
  | ValueError.

(** What the datetime functions can raise on a value out of range. *)
Inductive DateError :=
  | DateOverflow
  | DateOS
  | DateValue.

Definition date_exn (e : DateError) : Exn :=
  match e with
  | DateOverflow => OverflowError
  | DateOS => OSError
  | DateValue => ValueError
  end.

Inductive Outcome (A : Type) :=
  | Return (a : A)
  | Raise (e : Exn)
  | Diverge.
Arguments Return {A} a.
Arguments Raise {A} e.
Arguments Diverge {A}.

(** ** The world: database tables, mail and provider traffic *)

Record World := {
  locations : gmap nat Location.t;
  plans : gmap nat Plan.t;
  subscriptions : gmap nat Subscription.t;
  location_tags : list LocationTag.t;
  stock_counts : list LocationStockCount.t;
  stripe_log : list StripeRequest;
  outbox : list Email;
  clock_reads : nat;
  uuid_draws : nat
}.

(** Computations over a mutable state [Σ]: the world alone, or an
    instance under mutation together with the world. *)
Definition St (Σ A : Type) : Type := Σ → Outcome A * Σ.

Abbreviation M := (St World).

Definition ret {Σ A} (a : A) : St Σ A := λ σ, (Return a, σ).

Definition bind {Σ A B} (m : St Σ A) (k : A → St Σ B) : St Σ B :=
  λ σ, match m σ with
       | (Return a, σ') => k a σ'
       | (Raise e, σ') => (Raise e, σ')
       | (Diverge, σ') => (Diverge, σ')
       end.

Definition raise {Σ A} (e : Exn) : St Σ A := λ σ, (Raise e, σ).

Definition diverge {Σ A} : St Σ A := λ σ, (Diverge, σ).

Definition lift {Σ A} (o : Outcome A) : St Σ A := λ σ, (o, σ).

(** The value of a datetime computation, or the exception it raises. *)
Definition lift_date {Σ} (r : DateError + Z) : St Σ Z :=
  λ σ, match r with
       | inr t => (Return t, σ)
       | inl e => (Raise (date_exn e), σ)
       end.

Definition gets {Σ A} (f : Σ → A) : St Σ A := λ σ, (Return (f σ), σ).

Definition modify {Σ} (f : Σ → Σ) : St Σ unit := λ σ, (Return tt, f σ).

(** [try: m  except IndexError: h] *)
Definition except_IndexError {Σ A} (m h : St Σ A) : St Σ A :=
  λ σ, match m σ with
       | (Raise IndexError, σ') => h σ'
       | r => r
       end.

(** A computation on the world, run by a method that also holds [self]. *)
Definition in_world {S A} (m : M A) : St (S * World) A :=
  λ σ, let '(r, w') := m (snd σ) in (r, (fst σ, w')).

Declare Scope py_scope.
Delimit Scope py_scope with py.
Notation "x <- m ;; k" := (bind m (λ x, k))
  (at level 100, m at next level, right associativity) : py_scope.
Notation "m ;;; k" := (bind m (λ _, k))
  (at level 100, right associativity) : py_scope.
Local Open Scope py_scope.

(** ** Table updates *)

Definition insert_location_tag (row : LocationTag.t) (w : World) : World :=
  {| locations := locations w; plans := plans w;
     subscriptions := subscriptions w;
     location_tags := location_tags w ++ [row];
     stock_counts := stock_counts w;
     stripe_log := stripe_log w; outbox := outbox w;
     clock_reads := clock_reads w; uuid_draws := uuid_draws w |}.

Definition insert_stock_count (row : LocationStockCount.t) (w : World) : World :=
  {| locations := locations w; plans := plans w;
     subscriptions := subscriptions w;
     location_tags := location_tags w;
     stock_counts := stock_counts w ++ [row];
     stripe_log := stripe_log w; outbox := outbox w;
     clock_reads := clock_reads w; uuid_draws := uuid_draws w |}.

Definition tick_clock (w : World) : World :=
  {| locations := locations w; plans := plans w;
     subscriptions := subscriptions w;
     location_tags := location_tags w;
     stock_counts := stock_counts w;
     stripe_log := stripe_log w; outbox := outbox w;
     clock_reads := S (clock_reads w); uuid_draws := uuid_draws w |}.

(** ** Column types *)

(** models.py imports [postgres_stats], so the tables are PostgreSQL's: an
    integer column holds 32 bits, a [CharField] at most [max_length]
    characters, and a value that does not fit raises [DataError] before
    any constraint of the table is looked at. *)
Definition integer_min : Z := -2147483648.
Definition integer_max : Z := 2147483647.

Definition integer_fits (n : Z) : bool :=
  (integer_min <=? n) && (n <=? integer_max).

Definition varchar_fits (max_length : nat) (s : string) : bool :=
  (String.length s <=? max_length)%nat.

(** A nullable [CharField]: [NULL] always fits. *)
Definition varchar_null_fits (max_length : nat) (s : option string) : bool :=
  match s with
  | Some s => varchar_fits max_length s
  | None => true
  end.

(** ** Query building blocks *)

(** SQL [SUM]: [NULL] over no rows. *)
Definition Sum (xs : list Z) : option Z :=
  match xs with
  | [] => None
  | _ => Some (foldr Z.add 0 xs)
  end.

(** Python's [x or d] for an optional integer. *)
Definition or_ (x : option Z) (d : Z) : Z :=
  match x with
  | None => d
  | Some v => if Z.eqb v 0 then d else v
  end.

(** [qs[0]] on an evaluated queryset. *)
Definition index0 {A} (qs : list A) : M A :=
  match qs with
  | x :: _ => ret x
  | [] => raise IndexError
  end.

Definition newer_first (a b : LocationStockCount.t) : Prop :=
  LocationStockCount.created_at b ≤ LocationStockCount.created_at a.

#[global] Instance newer_first_dec : RelDecision newer_first.
Proof. intros a b. unfold newer_first. apply _. Defined.

(** [.order_by('-created_at')]. The database leaves the order among rows
    of equal time open; the results below hold whichever comes first. *)
Definition order_by_created_at_desc (qs : list LocationStockCount.t)
    : list LocationStockCount.t :=
  merge_sort newer_first qs.

(** The [Case(When(...), When(...), default=1)] expression of
    [available_boxes], over the join of a tag with its location. *)
Definition case_checked_out (w : World) (tag : LocationTag.t) : option Z :=
  match locations w !! LocationTag.location tag with
  | Some l =>
      Some (if String.eqb (Location.service l) Location.CHECKOUT then 1
            else if String.eqb (Location.service l) Location.CHECKIN then -1
            else 1)
  | None => None
  end.

(** [LocationTag.objects.filter(subscription=self)] *)
Definition tags_of_subscription (self : Subscription.t) (w : World)
    : list LocationTag.t :=
  filter (λ t, LocationTag.subscription t = Subscription.id self)
         (location_tags w).

(** [LocationStockCount.objects.filter(location=self)] *)
Definition stock_counts_of (self : Location.t) (w : World)
    : list LocationStockCount.t :=
  filter (λ c, LocationStockCount.location c = Location.id self)
         (stock_counts w).

(** [LocationTag.objects.filter(location=self, created_at__gt=since)] *)
Definition tags_at_since (self : Location.t) (since : Z) (w : World)
    : list LocationTag.t :=
  filter (λ t, LocationTag.location t = Location.id self
               ∧ since < LocationTag.created_at t)
         (location_tags w).

Section BoxAccounting.

(** [timezone_now k] is what the [k]-th reading of the wall clock
    returns ([auto_now_add] reads it once per inserted row). *)
Variable timezone_now : nat → Z.

Definition now : M Z :=
  λ w, (Return (timezone_now (clock_reads w)), tick_clock w).

(** [LocationTag.objects.create(subscription=..., location=...)] *)
Definition LocationTag_create (subscription : Subscription.t)
    (location : Location.t) : M LocationTag.t :=
  t <- now ;;
  let row := LocationTag.mk (Subscription.id subscription)
                            (Location.id location) t in
  modify (insert_location_tag row) ;;;
  ret row.

(** [LocationStockCount.objects.create(location=..., count=...)]; the
    database refuses a [count] that is no 32-bit integer, and a negative
    one ([PositiveIntegerField]). *)
Definition LocationStockCount_create (location : Location.t) (count : Z)
    : M LocationStockCount.t :=
  t <- now ;;
  let row := LocationStockCount.mk (Location.id location) t count in
  if negb (integer_fits count) then raise DataError
  else if count <? 0 then raise IntegrityError
  else
    modify (insert_stock_count row) ;;;
    ret row.

(** *** Subscription *)

Definition available_boxes (self : Subscription.t) : M Z :=
  boxes_checked_out <-
    gets (λ w, Sum (omap (case_checked_out w) (tags_of_subscription self w))) ;;
  ret (Subscription.number_of_boxes self - or_ boxes_checked_out 0).

Definition boxes_checked_out (self : Subscription.t) : M Z :=
  a <- available_boxes self ;;
  ret (Subscription.number_of_boxes self - a).

Definition can_checkout (self : Subscription.t) (number_of_boxes : Z) : M bool :=
  a <- available_boxes self ;;
  ret (a >=? number_of_boxes).

Definition can_checkin (self : Subscription.t) (number_of_boxes : Z) : M bool :=
  a <- available_boxes self ;;
  ret (a + number_of_boxes <=? Subscription.number_of_boxes self).

Definition can_tag_location (self : Subscription.t) (location : Location.t)
    (number_of_boxes : Z) : M bool :=
  if String.eqb (Location.service location) Location.CHECKIN
  then can_checkin self number_of_boxes
  else can_checkout self number_of_boxes.

(** The body of [for _ in range(number_of_boxes)], [k] rounds to go. *)
Fixpoint tag_location_loop (k : nat) (self : Subscription.t)
    (location : Location.t) (tags : list LocationTag.t)
    : M (list LocationTag.t) :=
  match k with
  | O => ret tags
  | S k' =>
      t <- LocationTag_create self location ;;
      tag_location_loop k' self location (tags ++ [t])
  end.

Definition tag_location (self : Subscription.t) (location : Location.t)
    (number_of_boxes : Z) : M (list LocationTag.t) :=
  tag_location_loop (Z.to_nat number_of_boxes) self location [].

(** *** Location *)

Definition set_stock (self : Location.t) (count : Z) : M LocationStockCount.t :=
  LocationStockCount_create self count.

Definition get_estimated_stock (self : Location.t) : M Z :=
  last_count <-
    except_IndexError
      (qs <- gets (λ w, order_by_created_at_desc (stock_counts_of self w)) ;;
       index0 qs)
      (LocationStockCount_create self 0) ;;
  boxes_moved <-
    gets (λ w, Z.of_nat (length
      (tags_at_since self (LocationStockCount.created_at last_count) w))) ;;
  if String.eqb (Location.service self) Location.CHECKOUT
  then ret (LocationStockCount.count last_count - boxes_moved)
  else ret (LocationStockCount.count last_count + boxes_moved).

(** The operations of the accounting subsystem, and the world each
    leaves behind. *)
Inductive Operation :=
  | OpAvailableBoxes (s : Subscription.t)
  | OpBoxesCheckedOut (s : Subscription.t)
  | OpCanCheckout (s : Subscription.t) (n : Z)
  | OpCanCheckin (s : Subscription.t) (n : Z)
  | OpCanTagLocation (s : Subscription.t) (l : Location.t) (n : Z)
  | OpTagLocation (s : Subscription.t) (l : Location.t) (n : Z)
  | OpSetStock (l : Location.t) (count : Z)
  | OpGetEstimatedStock (l : Location.t).

Definition run (op : Operation) (w : World) : World :=
  match op with
  | OpAvailableBoxes s => snd (available_boxes s w)
  | OpBoxesCheckedOut s => snd (boxes_checked_out s w)
  | OpCanCheckout s n => snd (can_checkout s n w)
  | OpCanCheckin s n => snd (can_checkin s n w)
  | OpCanTagLocation s l n => snd (can_tag_location s l n w)
  | OpTagLocation s l n => snd (tag_location s l n w)
  | OpSetStock l c => snd (set_stock l c w)
  | OpGetEstimatedStock l => snd (get_estimated_stock l w)
  end.

End BoxAccounting.


(** ** Billing: [Plan.save] and [Subscription.update_from_stripe_sub] *)

Definition log_stripe (req : StripeRequest) (w : World) : World :=
  {| locations := locations w; plans := plans w;
     subscriptions := subscriptions w;
     location_tags := location_tags w;
     stock_counts := stock_counts w;
     stripe_log := stripe_log w ++ [req]; outbox := outbox w;
     clock_reads := clock_reads w; uuid_draws := uuid_draws w |}.

Definition draw_uuid (w : World) : World :=
  {| locations := locations w; plans := plans w;
     subscriptions := subscriptions w;
     location_tags := location_tags w;
     stock_counts := stock_counts w;
     stripe_log := stripe_log w; outbox := outbox w;
     clock_reads := clock_reads w; uuid_draws := S (uuid_draws w) |}.

Definition store_plan (pk : nat) (row : Plan.t) (w : World) : World :=
  {| locations := locations w; plans := <[pk := row]> (plans w);
     subscriptions := subscriptions w;
     location_tags := location_tags w;
     stock_counts := stock_counts w;
     stripe_log := stripe_log w; outbox := outbox w;
     clock_reads := clock_reads w; uuid_draws := uuid_draws w |}.

Definition store_subscription (row : Subscription.t) (w : World) : World :=
  {| locations := locations w; plans := plans w;
     subscriptions := <[Subscription.id row := row]> (subscriptions w);
     location_tags := location_tags w;
     stock_counts := stock_counts w;
     stripe_log := stripe_log w; outbox := outbox w;
     clock_reads := clock_reads w; uuid_draws := uuid_draws w |}.

Definition send_mail (m : Email) (w : World) : World :=
  {| locations := locations w; plans := plans w;
     subscriptions := subscriptions w;
     location_tags := location_tags w;
     stock_counts := stock_counts w;
     stripe_log := stripe_log w; outbox := outbox w ++ [m];
     clock_reads := clock_reads w; uuid_draws := uuid_draws w |}.

(** The values of a row, in the order of [Plan.field_names]. *)
Definition Plan_values (row : Plan.t) : list value :=
  [Plan.of_option_nat (Plan.id row); VStr (Plan.name row);
   VBool (Plan.available row); VInt (Plan.amount row);
   VInt (Plan.number_of_boxes row); Plan.of_option_string (Plan.stripe_id row)].

(** [Plan.from_db]: the instance remembers the values it was loaded with. *)
Definition from_db (row : Plan.t) (field_names : list string)
    (values : list value) : Plan.t :=
  Plan.set_loaded_values row (Some (list_to_map (zip field_names values))).

(** [Plan.objects.get(pk=pk)], all fields loaded. *)
Definition Plan_get (pk : nat) (w : World) : option Plan.t :=
  match plans w !! pk with
  | Some row => Some (from_db row Plan.field_names (Plan_values row))
  | None => None
  end.

Definition is_changed (self : Plan.t) (field_name : string) : Outcome bool :=
  match Plan._loaded_values self with
  | None => Return false
  | Some loaded =>
      match loaded !! field_name with
      | None => Raise (KeyError field_name)
      | Some old_value =>
          match Plan.getattr self field_name with
          | None => Raise (AttributeError field_name)
          | Some new_value => Return (negb (py_eq old_value new_value))
          end
      end
  end.

(** [Plan.objects.filter(stripe_id=stripe_id).count() > 0] *)
Definition stripe_id_in_use (stripe_id : string) (w : World) : bool :=
  bool_decide (Exists (λ kv, Plan.stripe_id kv.2 = Some stripe_id)
                      (map_to_list (plans w))).

(** The freshly inserted row's primary key. *)
Definition next_plan_id (w : World) : nat :=
  S (map_fold (λ k _ acc, Nat.max k acc) 0%nat (plans w)).

(** Some plan row under a key other than [pk] satisfies [p]. *)
Definition other_plan (pk : nat) (p : Plan.t → Prop)
    `{!∀ r, Decision (p r)} (w : World) : bool :=
  bool_decide (Exists (λ kv, kv.1 ≠ pk ∧ p kv.2) (map_to_list (plans w))).

(** The write of [new] under [pk] gives column [col] a value the stored
    row does not already have (always so on an insert). *)
Definition writes_column {A} `{!EqDecision A} (pk : nat) (col : Plan.t → A)
    (new : Plan.t) (w : World) : bool :=
  match plans w !! pk with
  | Some old => bool_decide (col old ≠ col new)
  | None => true
  end.

(** The columns of the plan table: [name] and [stripe_id] hold 255
    characters, [amount] and [number_of_boxes] are integers. *)
Definition plan_write_overflows (pk : nat) (new : Plan.t) (w : World) : bool :=
  (writes_column pk Plan.name new w
   && negb (varchar_fits 255 (Plan.name new)))
  || (writes_column pk Plan.stripe_id new w
      && negb (varchar_null_fits 255 (Plan.stripe_id new)))
  || (writes_column pk Plan.amount new w
      && negb (integer_fits (Plan.amount new)))
  || (writes_column pk Plan.number_of_boxes new w
      && negb (integer_fits (Plan.number_of_boxes new))).

(** The constraints of the plan table: [name] and [stripe_id] are unique
    (a null [stripe_id] conflicts with nothing), [amount] and
    [number_of_boxes] are not negative. Stored rows satisfy them, so a
    write can only break one through a column it changes. *)
Definition plan_write_violation (pk : nat) (new : Plan.t) (w : World) : bool :=
  (writes_column pk Plan.name new w
   && other_plan pk (λ r, Plan.name r = Plan.name new) w)
  || (writes_column pk Plan.stripe_id new w
      && bool_decide (Plan.stripe_id new ≠ None)
      && other_plan pk (λ r, Plan.stripe_id r = Plan.stripe_id new) w)
  || (writes_column pk Plan.amount new w && (Plan.amount new <? 0))
  || (writes_column pk Plan.number_of_boxes new w
      && (Plan.number_of_boxes new <? 0)).

(** The columns of the subscription table: [name] holds 255 characters,
    [stripe_id] and [stripe_status] 100. *)
Definition subscription_fits (row : Subscription.t) : bool :=
  varchar_null_fits 255 (Subscription.name row)
  && varchar_null_fits 100 (Subscription.stripe_id row)
  && varchar_fits 100 (Subscription.stripe_status row).

(** What the specification calls "the amount changed from its loaded
    database value": there is a loaded value and the attribute differs. *)
Definition loaded_amount_differs (self : Plan.t) : bool :=
  match Plan._loaded_values self with
  | Some loaded =>
      match loaded !! "amount" with
      | Some old_value => negb (py_eq old_value (VInt (Plan.amount self)))
      | None => false
      end
  | None => false
  end.

Section Billing.

(** The payment provider: given the calls made so far and the next
    call, [None] when it succeeds, or the error it raises. *)
Variable stripe_api : list StripeRequest → StripeRequest → option string.
Variable slugify : string → string.
(** [shortuuid_uuid k] is the [k]-th identifier drawn. *)
Variable shortuuid_uuid : nat → string.
(** [datetime.fromtimestamp] and [timezone.make_aware(_, is_dst=False)],
    datetimes counted in seconds; either raises on a value it cannot
    represent. *)
Variable datetime_fromtimestamp : Z → DateError + Z.
Variable timezone_make_aware : Z → DateError + Z.

Definition timedelta_days (d : Z) : Z := d * 86400.

(** [datetime.min] and [datetime.max], in seconds. *)
Definition datetime_min : Z := -62135596800.
Definition datetime_max : Z := 253402300799.

(** [datetime + timedelta]: [OverflowError] outside years 1 to 9999. *)
Definition datetime_add (t delta : Z) : DateError + Z :=
  if (datetime_min <=? t + delta) && (t + delta <=? datetime_max)
  then inr (t + delta) else inl DateOverflow.

Definition stripe_call (req : StripeRequest) : M unit :=
  λ w, match stripe_api (stripe_log w) req with
       | None => (Return tt, log_stripe req w)
       | Some msg => (Raise (StripeError msg), log_stripe req w)
       end.

Definition uuid : M string :=
  λ w, (Return (shortuuid_uuid (uuid_draws w)), draw_uuid w).

(** *** Plan *)

(** The [while] loop of [_generate_stripe_id], with [fuel] bounding the
    number of further draws. *)
Fixpoint generate_stripe_id_loop (fuel : nat) (name : string)
    (stripe_id : string) : M string :=
  in_use <- gets (stripe_id_in_use stripe_id) ;;
  if in_use : bool then
    match fuel with
    | O => diverge
    | S fuel' =>
        u <- uuid ;;
        generate_stripe_id_loop fuel' name
          (slugify name ++ "-" ++ substring 0 6 u)
    end
  else ret stripe_id.

Definition _generate_stripe_id (fuel : nat) (self : Plan.t) (force : bool)
    : M (option string) :=
  if force || negb (truthy (Plan.stripe_id self)) then
    u <- uuid ;;
    stripe_id <- generate_stripe_id_loop fuel (Plan.name self)
                   (slugify (Plan.name self) ++ substring 0 6 u) ;;
    ret (Some stripe_id)
  else ret None.

(** [models.Model.save] on a plan: insert when there is no primary key
    yet, write the row otherwise; the database raises [DataError] when a
    value does not fit its column and [IntegrityError] when the write
    breaks a constraint of the table, and then writes nothing. *)
Definition Model_save_Plan : St (Plan.t * World) unit :=
  self <- gets fst ;;
  match Plan.id self with
  | Some pk =>
      overflows <- gets (λ σ, plan_write_overflows pk self σ.2) ;;
      violation <- gets (λ σ, plan_write_violation pk self σ.2) ;;
      if overflows : bool then raise DataError
      else if violation : bool then raise IntegrityError
      else
        modify (λ σ, (σ.1, store_plan pk (Plan.set_loaded_values self None) σ.2))
  | None =>
      pk <- gets (λ σ, next_plan_id σ.2) ;;
      let self' := Plan.set_id self (Some pk) in
      overflows <- gets (λ σ, plan_write_overflows pk self' σ.2) ;;
      violation <- gets (λ σ, plan_write_violation pk self' σ.2) ;;
      if overflows : bool then raise DataError
      else if violation : bool then raise IntegrityError
      else
        modify (λ σ, (self', store_plan pk (Plan.set_loaded_values self' None) σ.2))
  end.

Definition Plan_save (fuel : nat) : St (Plan.t * World) unit :=
  self <- gets fst ;;
  if truthy (Plan.stripe_id self) then
    amount_changed <- lift (is_changed self "amount") ;;
    if amount_changed : bool then
      raise (CannotChangeException self "amount")
    else
      name_changed <- lift (is_changed self "name") ;;
      (if name_changed : bool then
         in_world (stripe_call (PlanRetrieve (Plan.stripe_id self))) ;;;
         in_world (stripe_call (PlanSave (Plan.stripe_id self) (Plan.name self)))
       else ret tt) ;;;
      Model_save_Plan
  else
    stripe_id <- in_world (_generate_stripe_id fuel self false) ;;
    modify (λ σ, (Plan.set_stripe_id σ.1 stripe_id, σ.2)) ;;;
    in_world (stripe_call
      (PlanCreate (Plan.name self) stripe_id "year" "usd" (Plan.amount self))) ;;;
    Model_save_Plan.

(** *** Subscription *)

(** The [post_save] receiver. *)
Definition new_subscription_email_to_admins (instance : Subscription.t)
    (created : bool) : M unit :=
  if created
  then modify (send_mail {| template_name := "new_subscription";
                            context_subscription := instance |})
  else ret tt.

(** [models.Model.save] on a subscription, then the [post_save] signal;
    the database raises [DataError] when a value does not fit its column,
    and then writes nothing and no signal is sent. *)
Definition Model_save_Subscription : St (Subscription.t * World) unit :=
  self <- gets fst ;;
  created <- gets (λ σ, bool_decide (subscriptions σ.2 !! Subscription.id self = None)) ;;
  if subscription_fits self then
    modify (λ σ, (σ.1, store_subscription self σ.2)) ;;;
    in_world (new_subscription_email_to_admins self created)
  else raise DataError.

Definition update_from_stripe_sub (stripe_subscription : StripeSubscription.t)
    (force : bool) : St (Subscription.t * World) unit :=
  self <- gets fst ;;
  if truthy (Subscription.stripe_id self) && negb force then
    raise (SubscriptionUpdateException self stripe_subscription
             "Subscription already has a Stripe subscription")
  else
    naive <- lift_date (datetime_fromtimestamp
               (StripeSubscription.current_period_end stripe_subscription)) ;;
    ends_at <- lift_date (datetime_add naive (timedelta_days 3)) ;;
    ends_at <- lift_date (timezone_make_aware ends_at) ;;
    modify (λ σ, (Subscription.set_stripe σ.1
                    (Some (StripeSubscription.id stripe_subscription))
                    (Subscription.stripe_status σ.1)
                    (Subscription.ends_at σ.1), σ.2)) ;;;
    modify (λ σ, (Subscription.set_stripe σ.1
                    (Subscription.stripe_id σ.1)
                    (StripeSubscription.status stripe_subscription)
                    (Subscription.ends_at σ.1), σ.2)) ;;;
    modify (λ σ, (Subscription.set_stripe σ.1
                    (Subscription.stripe_id σ.1)
                    (Subscription.stripe_status σ.1)
                    (Some ends_at), σ.2)) ;;;
    Model_save_Subscription.

End Billing.

(** ** The specification's counts *)

Definition service_of_tag (w : World) (t : LocationTag.t) : option string :=
  Location.service <$> locations w !! LocationTag.location t.

(** Number of tags in [ts] whose location has a service satisfying [p]. *)
Definition count_service (p : string → bool) (w : World)
    (ts : list LocationTag.t) : Z :=
  Z.of_nat (length (List.filter
    (λ t, match service_of_tag w t with Some s => p s | None => false end) ts)).

Definition is_checkout (s : string) : bool := String.eqb s Location.CHECKOUT.
Definition is_checkin (s : string) : bool := String.eqb s Location.CHECKIN.
Definition is_other (s : string) : bool := negb (is_checkout s) && negb (is_checkin s).

Definition checkouts (self : Subscription.t) (w : World) : Z :=
  count_service is_checkout w (tags_of_subscription self w).
Definition checkins (self : Subscription.t) (w : World) : Z :=
  count_service is_checkin w (tags_of_subscription self w).
Definition other_tags (self : Subscription.t) (w : World) : Z :=
  count_service is_other w (tags_of_subscription self w).

(** The sum the aggregate of [available_boxes] yields, [0] over no rows. *)
Definition checked_out_sum (self : Subscription.t) (w : World) : Z :=
  foldr Z.add 0 (omap (case_checked_out w) (tags_of_subscription self w)).

(** The rows [tag_location] inserts: one per clock reading. *)
Definition new_tags (timezone_now : nat → Z) (self : Subscription.t)
    (location : Location.t) (from : nat) (k : nat) : list LocationTag.t :=
  map (λ i, LocationTag.mk (Subscription.id self) (Location.id location)
                           (timezone_now i))
      (seq from k).

Definition with_new_tags (rows : list LocationTag.t) (w : World) : World :=
  {| locations := locations w; plans := plans w;
     subscriptions := subscriptions w;
     location_tags := location_tags w ++ rows;
     stock_counts := stock_counts w;
     stripe_log := stripe_log w; outbox := outbox w;
     clock_reads := (clock_reads w + length rows)%nat;
     uuid_draws := uuid_draws w |}.

(** The estimate built on a baseline row: the count, less the tags since
    at a check-out location and plus them anywhere else. *)
Definition estimate_from (self : Location.t) (baseline : LocationStockCount.t)
    (w : World) : Z :=
  let boxes_moved :=
    Z.of_nat (length
      (tags_at_since self (LocationStockCount.created_at baseline) w)) in
  if String.eqb (Location.service self) Location.CHECKOUT
  then LocationStockCount.count baseline - boxes_moved
  else LocationStockCount.count baseline + boxes_moved.

(** The zero row [get_estimated_stock] inserts when there is none. *)
Definition zero_count (timezone_now : nat → Z) (self : Location.t) (w : World)
    : LocationStockCount.t :=
  LocationStockCount.mk (Location.id self) (timezone_now (clock_reads w)) 0.

(** The [ends_at] both Stripe constructors compute: the period end as a
    local datetime, three days later, made aware. *)
Definition ends_at_for (datetime_fromtimestamp timezone_make_aware
    : Z → DateError + Z) (current_period_end : Z) : DateError + Z :=
  match datetime_fromtimestamp current_period_end with
  | inl e => inl e
  | inr naive =>
      match datetime_add naive (timedelta_days 3) with
      | inl e => inl e
      | inr later => timezone_make_aware later
      end
  end.

(** ** Sample data *)

Module Sample.
Definition cafe : Location.t := Location.mk 1 "CAFE22" "OUT" "Cafe" "1 Main St".
Definition dropbox : Location.t := Location.mk 2 "DROP33" "IN" "Drop box" "2 Main St".
Definition depot : Location.t := Location.mk 3 "DEPOT4" "XX" "Depot" "3 Main St".

Definition plan3 : Plan.t :=
  Plan.mk (Some 1%nat) "Three boxes" true 2500 3 (Some "three-boxes7GH2KQ") None.

(** Subscriber 7 holds a plan of three boxes, subscriber 8 has no plan. *)
Definition sub7 : Subscription.t :=
  Subscription.mk 7 None 70 (Some plan3) 0 None None "active" None.
Definition sub8 : Subscription.t :=
  Subscription.mk 8 None 80 None 0 None (Some "sub_8") "active" None.

Definition clock (k : nat) : Z := 100 + Z.of_nat k.

Definition world : World :=
  {| locations := {[ 1%nat := cafe; 2%nat := dropbox; 3%nat := depot ]};
     plans := {[ 1%nat := plan3 ]};
     subscriptions := {[ 7%nat := sub7; 8%nat := sub8 ]};
     location_tags :=
       [LocationTag.mk 7 1 10; LocationTag.mk 7 1 20; LocationTag.mk 7 2 30;
        LocationTag.mk 8 2 40; LocationTag.mk 7 3 50];
     stock_counts :=
       [LocationStockCount.mk 1 5 40; LocationStockCount.mk 1 15 30;
        LocationStockCount.mk 2 15 8];
     stripe_log := []; outbox := []; clock_reads := 0; uuid_draws := 0 |}.

Definition stripe_sub : StripeSubscription.t :=
  StripeSubscription.mk "sub_9" "trialing" 1000.

Definition stripe_ok (_ : list StripeRequest) (_ : StripeRequest)
  : option string := None.
Definition slugify (s : string) : string := s.
Definition shortuuid_uuid (k : nat) : string := "Q7XK2MWZ9RTB".
(** A machine on UTC: [fromtimestamp] is the identity within the range
    of [datetime] and raises [OverflowError] outside it. *)
Definition fromtimestamp (t : Z) : DateError + Z :=
  if (-62135596800 <=? t) && (t <=? 253402300799) then inr t
  else inl DateOverflow.
Definition make_aware (t : Z) : DateError + Z := inr t.

(** A provider object whose period end no [datetime] can hold. *)
Definition stripe_sub_overflow : StripeSubscription.t :=
  StripeSubscription.mk "sub_9" "trialing" (2 ^ 63).
End Sample.

(** ** Further methods of the models *)

Definition Plan_set_available (self : Plan.t) (a : bool) : Plan.t :=
  Plan.mk (Plan.id self) (Plan.name self) a (Plan.amount self)
    (Plan.number_of_boxes self) (Plan.stripe_id self) (Plan._loaded_values self).

Definition Plan_set_name (self : Plan.t) (n : string) : Plan.t :=
  Plan.mk (Plan.id self) n (Plan.available self) (Plan.amount self)
    (Plan.number_of_boxes self) (Plan.stripe_id self) (Plan._loaded_values self).

Definition Location_set_code (self : Location.t) (c : string) : Location.t :=
  Location.mk (Location.id self) c (Location.service self)
    (Location.name self) (Location.address self).

(** Runs a method on an instance and hands back the instance as the
    method left it. *)
Definition on_instance {S A} (self : S) (m : St (S * World) A) : M S :=
  λ w, match m (self, w) with
       | (Return _, σ) => (Return σ.1, σ.2)
       | (Raise e, σ) => (Raise e, σ.2)
       | (Diverge, σ) => (Diverge, σ.2)
       end.

(** [Meta.ordering = ['amount', 'number_of_boxes']] *)
Definition plan_ordering (a b : Plan.t) : Prop :=
  Plan.amount a < Plan.amount b
  ∨ (Plan.amount a = Plan.amount b
     ∧ Plan.number_of_boxes a ≤ Plan.number_of_boxes b).

#[global] Instance plan_ordering_dec : RelDecision plan_ordering.
Proof. intros a b. unfold plan_ordering. apply _. Defined.

(** [PlanQuerySet.available], evaluated: the rows that pass
    [filter(available=True).exclude(stripe_id=None)], loaded and put in
    the model's ordering. *)
Definition PlanQuerySet_available (w : World) : list Plan.t :=
  merge_sort plan_ordering
    ((λ row, from_db row Plan.field_names (Plan_values row))
     <$> filter (λ row, Plan.available row = true ∧ Plan.stripe_id row ≠ None)
           (map_to_list (plans w)).*2).

(** Truth value of a Python value. *)
Definition value_truthy (v : value) : bool :=
  match v with
  | VNone => false
  | VBool b => b
  | VInt z => negb (Z.eqb z 0)
  | VStr s => negb (String.eqb s "")
  end.

(** Python's [a and b] on evaluated operands. *)
Definition py_and (a b : value) : value :=
  if value_truthy a then b else a.

Definition is_stripe_active (self : Subscription.t) : bool :=
  bool_decide (Subscription.stripe_status self ∈ ["active"; "trialing"]).

Definition has_stripe_subscription (self : Subscription.t) : option string :=
  Subscription.stripe_id self.

Definition will_auto_renew (self : Subscription.t) : value :=
  py_and (Plan.of_option_string (has_stripe_subscription self))
         (VBool (is_stripe_active self)).

(** The freshly inserted subscription's primary key. *)
Definition next_subscription_id (w : World) : nat :=
  S (map_fold (λ k _ acc, Nat.max k acc) 0%nat (subscriptions w)).

(** [Location.objects.filter(code=code).count() > 0] *)
Definition code_in_use (code : string) (w : World) : bool :=
  bool_decide (Exists (λ kv, Location.code kv.2 = code)
                      (map_to_list (locations w))).

(** The identifiers [_generate_stripe_id] tries, in order: the first
    without a dash, the later ones with it. *)
Definition stripe_id_candidate (slugify : string → string)
    (shortuuid_uuid : nat → string) (name : string) (first_draw : nat)
    (k : nat) : string :=
  match k with
  | O => slugify name ++ substring 0 6 (shortuuid_uuid first_draw)
  | S _ =>
      slugify name ++ "-" ++ substring 0 6 (shortuuid_uuid (first_draw + k)%nat)
  end.

Definition with_uuid_draws (n : nat) (w : World) : World :=
  {| locations := locations w; plans := plans w;
     subscriptions := subscriptions w;
     location_tags := location_tags w;
     stock_counts := stock_counts w;
     stripe_log := stripe_log w; outbox := outbox w;
     clock_reads := clock_reads w; uuid_draws := (uuid_draws w + n)%nat |}.

(** [Plan.objects.filter(name=name).exists()] *)
Definition plan_name_in_use (name : string) (w : World) : bool :=
  bool_decide (Exists (λ kv, Plan.name kv.2 = name) (map_to_list (plans w))).

(** The database tables of two worlds agree. *)
Definition same_tables (w w' : World) : Prop :=
  locations w' = locations w
  ∧ plans w' = plans w
  ∧ subscriptions w' = subscriptions w
  ∧ location_tags w' = location_tags w
  ∧ stock_counts w' = stock_counts w.

(** Every plan row is filed under its own primary key. *)
Definition plans_keyed (w : World) : Prop :=
  ∀ pk row, plans w !! pk = Some row → Plan.id row = Some pk.

Section MoreMethods.

Variable timezone_now : nat → Z.
Variable stripe_api : list StripeRequest → StripeRequest → option string.
Variable slugify : string → string.
Variable shortuuid_uuid : nat → string.
Variable datetime_fromtimestamp : Z → DateError + Z.
Variable timezone_make_aware : Z → DateError + Z.

(** *** Plan *)

Definition Plan_delete (fuel : nat) : St (Plan.t * World) unit :=
  modify (λ σ, (Plan_set_available σ.1 false, σ.2)) ;;;
  Plan_save stripe_api slugify shortuuid_uuid fuel.

(** *** Subscription *)

(** [Subscription.objects.create] with keyword arguments: the fields left
    out take their defaults, [starts_at] reading the clock. *)
Definition Subscription_objects_create (user : nat)
    (stripe_id : option string) (plan : option Plan.t) (ends_at : option Z)
    (stripe_status : string) (corporate_code : option nat)
    : M Subscription.t :=
  starts_at <- now timezone_now ;;
  pk <- gets next_subscription_id ;;
  on_instance
    (Subscription.mk pk None user plan starts_at ends_at stripe_id
       stripe_status corporate_code)
    Model_save_Subscription.

Definition create_from_stripe_sub (user : nat) (plan : option Plan.t)
    (stripe_subscription : StripeSubscription.t)
    (corporate_code : option nat) : M Subscription.t :=
  naive <- lift_date (datetime_fromtimestamp
             (StripeSubscription.current_period_end stripe_subscription)) ;;
  ends_at <- lift_date (datetime_add naive (timedelta_days 3)) ;;
  ends_at <- lift_date (timezone_make_aware ends_at) ;;
  Subscription_objects_create user
    (Some (StripeSubscription.id stripe_subscription)) plan (Some ends_at)
    (StripeSubscription.status stripe_subscription)
    (match corporate_code with Some c => Some c | None => None end).

(** *** Location *)

(** The [while] loop of [_set_code], with [fuel] bounding the number of
    further draws. *)
Fixpoint set_code_loop (fuel : nat) (code : string) : M string :=
  in_use <- gets (code_in_use code) ;;
  if in_use : bool then
    match fuel with
    | O => diverge
    | S fuel' =>
        u <- uuid shortuuid_uuid ;;
        set_code_loop fuel' (substring 0 6 u)
    end
  else ret code.

Definition _set_code (fuel : nat) (force : bool) : St (Location.t * World) unit :=
  self <- gets fst ;;
  if force || String.eqb (Location.code self) "" then
    u <- in_world (uuid shortuuid_uuid) ;;
    code <- in_world (set_code_loop fuel (substring 0 6 u)) ;;
    modify (λ σ, (Location_set_code σ.1 code, σ.2))
  else ret tt.

End MoreMethods.

(** ** More sample data *)

Module Fixture.
Definition plan_row : Plan.t :=
  Plan.mk (Some 4%nat) "Five boxes" true 3000 4 (Some "five-boxesQ7XK2M") None.

Definition new_plan : Plan.t :=
  Plan.mk None "Five boxes" true 3500 5 None None.

(** Sample.world with one more plan, whose identifier collides with the
    first candidate drawn for [new_plan]. *)
Definition world : World :=
  {| locations := locations Sample.world;
     plans := <[4%nat := plan_row]> (plans Sample.world);
     subscriptions := subscriptions Sample.world;
     location_tags := location_tags Sample.world;
     stock_counts := stock_counts Sample.world;
     stripe_log := []; outbox := []; clock_reads := 0; uuid_draws := 0 |}.

Definition uuids (k : nat) : string :=
  match k with
  | O => "Q7XK2MWZ9RTB"
  | _ => "H3FJ8N2PLKDS"
  end.

Definition slug (name : string) : string :=
  if String.eqb name "Five boxes" then "five-boxes" else "plan".

Definition stripe_down (_ : list StripeRequest) (_ : StripeRequest)
  : option string := Some "api_connection_error".
End Fixture.

(** ** Properties of the box balance *)

Lemma or_Sum (xs : list Z) : or_ (Sum xs) 0 = foldr Z.add 0 xs.
Proof.
  destruct xs as [|x xs]; [reflexivity|].
  unfold Sum, or_. destruct (Z.eqb_spec (foldr Z.add 0 (x :: xs)) 0); congruence.
Qed.

Lemma available_boxes_eq (self : Subscription.t) (w : World) :
  available_boxes self w
  = (Return (Subscription.number_of_boxes self - checked_out_sum self w), w).
Proof.
  unfold available_boxes, bind, gets, ret. cbn. by rewrite or_Sum.
Qed.

(** Unfolds a guard down to the balance it reads. *)
Ltac read_balance :=
  unfold boxes_checked_out, can_tag_location, can_checkout, can_checkin,
    bind, ret;
  rewrite ?available_boxes_eq.

Lemma checkout_not_checkin (s : string) :
  is_checkout s = true → is_checkin s = false.
Proof.
  unfold is_checkout, is_checkin. intros H%String.eqb_eq. by subst.
Qed.

Lemma count_service_cons p w t ts :
  count_service p w (t :: ts)
  = (if match service_of_tag w t with Some s => p s | None => false end
     then 1 else 0) + count_service p w ts.
Proof.
  unfold count_service. cbn [List.filter].
  destruct (match service_of_tag w t with Some s => p s | None => false end);
    cbn [length]; lia.
Qed.

Lemma case_checked_out_service (w : World) (t : LocationTag.t) :
  case_checked_out w t
  = match service_of_tag w t with
    | Some s => Some (if is_checkout s then 1 else if is_checkin s then -1 else 1)
    | None => None
    end.
Proof.
  unfold case_checked_out, service_of_tag.
  by destruct (locations w !! LocationTag.location t).
Qed.

Lemma case_sum_counts (w : World) (ts : list LocationTag.t) :
  foldr Z.add 0 (omap (case_checked_out w) ts)
  = count_service is_checkout w ts - count_service is_checkin w ts
    + count_service is_other w ts.
Proof.
  induction ts as [|t ts IH]; [reflexivity|].
  rewrite !count_service_cons. cbn [omap list_omap].
  rewrite case_checked_out_service.
  destruct (service_of_tag w t) as [s|]; cbn [foldr]; rewrite IH; [|lia].
  unfold is_other.
  destruct (is_checkout s) eqn:Hout.
  - rewrite (checkout_not_checkin _ Hout). cbn [negb andb]. lia.
  - destruct (is_checkin s); cbn [negb andb]; lia.
Qed.

Lemma checked_out_sum_counts (self : Subscription.t) (w : World) :
  checked_out_sum self w = checkouts self w - checkins self w + other_tags self w.
Proof. apply case_sum_counts. Qed.

Lemma count_service_nonneg p w ts : 0 ≤ count_service p w ts.
Proof. unfold count_service. lia. Qed.

(** Where every tag of the subscription sits at a check-in or check-out
    location, the balance is the entitlement less checkouts net of
    checkins. *)
Lemma available_boxes_two_services (self : Subscription.t) (w : World) :
  other_tags self w = 0 →
  available_boxes self w
  = (Return (Subscription.number_of_boxes self
             - (checkouts self w - checkins self w)), w).
Proof.
  intros H. rewrite available_boxes_eq, checked_out_sum_counts, H.
  do 2 f_equal. lia.
Qed.

(** C1, as amended: for every subscription, [available_boxes] returns
    [number_of_boxes] minus the signed sum over its tags, where a tag at a
    CHECKOUT location counts +1, a tag at a CHECKIN location counts -1 and
    a tag at a location of any other service counts +1; that is,
    [number_of_boxes - (checkouts - checkins) - others]. The world is left
    as it was. *)
Theorem available_boxes_signed_sum (self : Subscription.t) (w : World) :
  available_boxes self w
  = (Return (Subscription.number_of_boxes self
             - (checkouts self w - checkins self w) - other_tags self w), w).
Proof.
  rewrite available_boxes_eq, checked_out_sum_counts. do 2 f_equal. lia.
Qed.

(** C1, as stated, fails: subscriber 7 has three boxes, two tags at a
    check-out location, one at a check-in location and one at a location
    whose service is neither; the balance is 1, not 3 - (2 - 1) = 2. *)
Lemma available_boxes_not_checkouts_less_checkins :
  fst (available_boxes Sample.sub7 Sample.world)
  ≠ Return (Subscription.number_of_boxes Sample.sub7
            - (checkouts Sample.sub7 Sample.world
               - checkins Sample.sub7 Sample.world)).
Proof. vm_compute. discriminate. Qed.

(** C4: [can_checkout(n)] is true exactly when [available_boxes >= n],
    [can_checkin(n)] exactly when [available_boxes + n <= number_of_boxes],
    and [can_tag_location] is [can_checkin] at a CHECKIN location and
    [can_checkout] at any other. Holds for every [n], so for [n >= 1]. *)
Theorem guards_follow_balance (self : Subscription.t) (location : Location.t)
    (n : Z) (w : World) :
  ∃ a, fst (available_boxes self w) = Return a
    ∧ (∃ b, can_checkout self n w = (Return b, w) ∧ (b = true ↔ n ≤ a))
    ∧ (∃ b, can_checkin self n w = (Return b, w)
            ∧ (b = true ↔ a + n ≤ Subscription.number_of_boxes self))
    ∧ (Location.service location = Location.CHECKIN →
         can_tag_location self location n = can_checkin self n)
    ∧ (Location.service location ≠ Location.CHECKIN →
         can_tag_location self location n = can_checkout self n).
Proof.
  eexists. split; [by rewrite available_boxes_eq|].
  read_balance.
  split; [|split; [|split]].
  - eexists. split; [reflexivity|]. rewrite Z.geb_le. lia.
  - eexists. split; [reflexivity|]. by rewrite Z.leb_le.
  - intros ->. reflexivity.
  - intros H%String.eqb_neq. by rewrite H.
Qed.

Lemma foldr_add_app (xs ys : list Z) :
  foldr Z.add 0 (xs ++ ys) = foldr Z.add 0 xs + foldr Z.add 0 ys.
Proof. induction xs as [|x xs IH]; cbn; lia. Qed.

(** Appending rows of the subscription adds their contributions. *)
Lemma checked_out_sum_app (self : Subscription.t) (w w' : World)
    (rows : list LocationTag.t) :
  locations w' = locations w →
  location_tags w' = location_tags w ++ rows →
  Forall (λ t, LocationTag.subscription t = Subscription.id self) rows →
  checked_out_sum self w'
  = checked_out_sum self w + foldr Z.add 0 (omap (case_checked_out w) rows).
Proof.
  intros Hl Ht Hrows. unfold checked_out_sum, tags_of_subscription.
  rewrite Ht, filter_app, omap_app, foldr_add_app.
  assert (Hc : case_checked_out w' = case_checked_out w)
    by (unfold case_checked_out; by rewrite Hl).
  rewrite Hc. do 3 f_equal. clear Ht Hc.
  induction Hrows as [|t rows Hsub _ IH]; [done|].
  by rewrite filter_cons_True, IH.
Qed.

(** C9: a tag whose location's service is neither 'IN' nor 'OUT' takes the
    default branch of the aggregation: it contributes +1 to the
    checked-out sum, so recording it lowers [available_boxes] by one. *)
Theorem other_service_counts_as_checkout (self : Subscription.t) (w : World)
    (t : LocationTag.t) (l : Location.t) :
  LocationTag.subscription t = Subscription.id self →
  locations w !! LocationTag.location t = Some l →
  Location.service l ≠ Location.CHECKIN →
  Location.service l ≠ Location.CHECKOUT →
  case_checked_out w t = Some 1
  ∧ ∃ a, fst (available_boxes self w) = Return a
       ∧ fst (available_boxes self (insert_location_tag t w)) = Return (a - 1).
Proof.
  intros Hsub Hl Hin%String.eqb_neq Hout%String.eqb_neq.
  assert (Hc : case_checked_out w t = Some 1).
  { unfold case_checked_out. by rewrite Hl, Hout, Hin. }
  split; [exact Hc|].
  eexists. split; [by rewrite available_boxes_eq|].
  rewrite available_boxes_eq. cbn [fst].
  rewrite (checked_out_sum_app self w _ [t]); [|done|done|by constructor].
  cbn [omap list_omap]. rewrite Hc. cbn [foldr]. f_equal. lia.
Qed.

Lemma other_service_counts_as_checkout_witness :
  fst (available_boxes Sample.sub7 Sample.world) = Return 1
  ∧ fst (available_boxes Sample.sub7
           (insert_location_tag (LocationTag.mk 7 3 60) Sample.world))
    = Return 0.
Proof.
  destruct (other_service_counts_as_checkout Sample.sub7 Sample.world
              (LocationTag.mk 7 3 60) Sample.depot)
    as [_ [a [Ha Ha']]]; [reflexivity|reflexivity|discriminate|discriminate|].
  assert (a = 1) as -> by (vm_compute in Ha; congruence).
  split; [exact Ha|exact Ha'].
Defined.

(** C10: without a plan [number_of_boxes] and [max_boxes] are 0, so
    [available_boxes] is the negation of the signed tag sum: positive only
    when checkin tags outnumber checkout tags, and [can_checkout(n)], for
    [n >= 1], holds only when checkins exceed checkouts by at least [n]. *)
Theorem no_plan_no_boxes (self : Subscription.t) (w : World) :
  Subscription.plan self = None →
  Subscription.number_of_boxes self = 0
  ∧ Subscription.max_boxes self = 0
  ∧ fst (available_boxes self w) = Return (- checked_out_sum self w)
  ∧ (0 < - checked_out_sum self w → checkouts self w < checkins self w)
  ∧ ∀ n, 1 ≤ n →
      ∃ b, fst (can_checkout self n w) = Return b
         ∧ (b = true ↔ checkouts self w + other_tags self w + n ≤ checkins self w)
         ∧ (b = true → checkouts self w + n ≤ checkins self w).
Proof.
  intros Hplan.
  assert (H0 : Subscription.number_of_boxes self = 0)
    by (unfold Subscription.number_of_boxes; by rewrite Hplan).
  pose proof (count_service_nonneg is_other w (tags_of_subscription self w)) as Hother.
  fold (other_tags self w) in Hother.
  split; [exact H0|]. split; [exact H0|].
  split; [by rewrite available_boxes_eq, H0|].
  rewrite checked_out_sum_counts.
  split; [lia|].
  intros n Hn. read_balance. rewrite H0, checked_out_sum_counts.
  eexists. split; [reflexivity|]. rewrite Z.geb_le. split; lia.
Qed.

Lemma no_plan_no_boxes_witness :
  Subscription.number_of_boxes Sample.sub8 = 0
  ∧ fst (available_boxes Sample.sub8 Sample.world) = Return 1
  ∧ fst (can_checkout Sample.sub8 1 Sample.world) = Return true
  ∧ fst (can_checkout Sample.sub8 2 Sample.world) = Return false.
Proof.
  destruct (no_plan_no_boxes Sample.sub8 Sample.world eq_refl)
    as (H0 & _ & Ha & _ & _).
  split; [exact H0|]. split; [exact Ha|]. split; reflexivity.
Defined.

(** ** Tagging *)

Lemma LocationTag_create_eq timezone_now self location w :
  LocationTag_create timezone_now self location w
  = (let row := LocationTag.mk (Subscription.id self) (Location.id location)
                               (timezone_now (clock_reads w)) in
     (Return row, insert_location_tag row (tick_clock w))).
Proof. reflexivity. Qed.

Lemma with_new_tags_cons row rows w :
  with_new_tags rows (insert_location_tag row (tick_clock w))
  = with_new_tags (row :: rows) w.
Proof.
  unfold with_new_tags, insert_location_tag, tick_clock. cbn.
  f_equal; [by rewrite <- app_assoc | lia].
Qed.

Lemma tag_location_loop_eq timezone_now self location k :
  ∀ tags w,
    tag_location_loop timezone_now k self location tags w
    = (let rows := new_tags timezone_now self location (clock_reads w) k in
       (Return (tags ++ rows), with_new_tags rows w)).
Proof.
  induction k as [|k IH]; intros tags w.
  - cbn. unfold ret, with_new_tags. rewrite !app_nil_r, Nat.add_0_r.
    by destruct w.
  - cbn [tag_location_loop]. unfold bind at 1.
    rewrite LocationTag_create_eq. cbv beta iota zeta. rewrite IH. cbv zeta.
    cbn [clock_reads tick_clock insert_location_tag].
    unfold new_tags. cbn [seq map]. rewrite with_new_tags_cons.
    by rewrite <- app_assoc.
Qed.

Lemma new_tags_length timezone_now self location from k :
  length (new_tags timezone_now self location from k) = k.
Proof. unfold new_tags. by rewrite length_map, length_seq. Qed.

Lemma new_tags_link timezone_now self location from k :
  Forall (λ t, LocationTag.subscription t = Subscription.id self
               ∧ LocationTag.location t = Location.id location)
         (new_tags timezone_now self location from k).
Proof. unfold new_tags. apply Forall_map, Forall_forall. done. Qed.

(** Rows at one stored location contribute its case value each. *)
Lemma case_sum_new_tags timezone_now self location from k w v :
  case_checked_out w (LocationTag.mk (Subscription.id self)
                        (Location.id location) 0) = Some v →
  foldr Z.add 0
    (omap (case_checked_out w) (new_tags timezone_now self location from k))
  = v * Z.of_nat k.
Proof.
  intros Hv. unfold new_tags. revert from.
  induction k as [|k IH]; intros from; [cbn; lia|].
  cbn [seq map omap list_omap].
  unfold case_checked_out at 1. cbn [LocationTag.location].
  unfold case_checked_out in Hv. cbn [LocationTag.location] in Hv. rewrite Hv.
  cbn [foldr]. rewrite IH. lia.
Qed.

(** C3: for [n >= 1], [tag_location(location, n)] inserts exactly [n] tag
    rows linking the subscription to the location and returns them,
    whatever [can_checkout] or [can_checkin] would answer; at a stored
    CHECKOUT location with [n] above [available_boxes], the balance
    afterwards is negative. *)
Theorem tag_location_unconditional (timezone_now : nat → Z)
    (self : Subscription.t) (location : Location.t) (n : Z) (w : World) :
  1 ≤ n →
  let rows := new_tags timezone_now self location (clock_reads w) (Z.to_nat n) in
  tag_location timezone_now self location n w = (Return rows, with_new_tags rows w)
  ∧ Z.of_nat (length rows) = n
  ∧ Forall (λ t, LocationTag.subscription t = Subscription.id self
                 ∧ LocationTag.location t = Location.id location) rows
  ∧ (∀ a, locations w !! Location.id location = Some location →
          Location.service location = Location.CHECKOUT →
          fst (available_boxes self w) = Return a →
          a < n →
          fst (available_boxes self (with_new_tags rows w)) = Return (a - n)
          ∧ a - n < 0).
Proof.
  intros Hn rows. split; [|split; [|split]].
  - unfold tag_location. by rewrite tag_location_loop_eq.
  - unfold rows. rewrite new_tags_length. lia.
  - apply new_tags_link.
  - intros a Hloc Hout Ha Hlt. split; [|lia].
    rewrite available_boxes_eq in Ha. cbn [fst] in Ha.
    rewrite available_boxes_eq. cbn [fst].
    rewrite (checked_out_sum_app self w _ rows); [|done|done|].
    + unfold rows.
      rewrite (case_sum_new_tags _ _ _ _ _ _ 1).
      * inversion Ha. f_equal. lia.
      * unfold case_checked_out. cbn [LocationTag.location].
        by rewrite Hloc, Hout.
    + eapply Forall_impl; [apply new_tags_link|]. by intros t [? _].
Qed.

Lemma tag_location_unconditional_witness :
  fst (can_tag_location Sample.sub7 Sample.cafe 2 Sample.world) = Return false
  ∧ fst (tag_location Sample.clock Sample.sub7 Sample.cafe 2 Sample.world)
    = Return [LocationTag.mk 7 1 100; LocationTag.mk 7 1 101]
  ∧ fst (available_boxes Sample.sub7
           (snd (tag_location Sample.clock Sample.sub7 Sample.cafe 2 Sample.world)))
    = Return (-1).
Proof.
  destruct (tag_location_unconditional Sample.clock Sample.sub7 Sample.cafe 2
              Sample.world ltac:(lia)) as (Hrun & _ & _ & Hneg).
  split; [reflexivity|]. rewrite Hrun. split; [reflexivity|].
  destruct (Hneg 1) as [Ha _]; [reflexivity|reflexivity|reflexivity|lia|].
  exact Ha.
Defined.

(** ** Stock estimation *)

#[global] Instance newer_first_trans : Transitive newer_first.
Proof. unfold newer_first. intros a b c. lia. Qed.

#[global] Instance newer_first_total : Total newer_first.
Proof. unfold newer_first. intros a b. lia. Qed.

Lemma order_by_nil (qs : list LocationStockCount.t) :
  order_by_created_at_desc qs = [] ↔ qs = [].
Proof.
  unfold order_by_created_at_desc. split.
  - intros H. apply Permutation_nil_r. rewrite <- H.
    symmetry. apply merge_sort_Permutation.
  - intros ->. reflexivity.
Qed.

(** The first row of the ordering is a row of the queryset, and none is
    more recent. *)
Lemma order_by_head (qs : list LocationStockCount.t) last rest :
  order_by_created_at_desc qs = last :: rest →
  last ∈ qs
  ∧ ∀ c, c ∈ qs →
      LocationStockCount.created_at c ≤ LocationStockCount.created_at last.
Proof.
  intros Hsort.
  pose proof (merge_sort_Permutation newer_first qs) as Hperm.
  pose proof (StronglySorted_merge_sort newer_first qs) as Hsorted.
  unfold order_by_created_at_desc in Hsort. rewrite Hsort in Hperm, Hsorted.
  split.
  - rewrite <- Hperm. by left.
  - intros c Hc. rewrite <- Hperm in Hc.
    apply StronglySorted_inv in Hsorted as [_ Hall].
    apply elem_of_cons in Hc as [->|Hc]; [lia|].
    rewrite Forall_forall in Hall. exact (Hall c Hc).
Qed.

Lemma get_estimated_stock_eq timezone_now (self : Location.t) (w : World) :
  get_estimated_stock timezone_now self w
  = match order_by_created_at_desc (stock_counts_of self w) with
    | last_count :: _ => (Return (estimate_from self last_count w), w)
    | [] =>
        let row := zero_count timezone_now self w in
        let w' := insert_stock_count row (tick_clock w) in
        (Return (estimate_from self row w'), w')
    end.
Proof.
  unfold get_estimated_stock, bind, except_IndexError, gets, estimate_from.
  destruct (order_by_created_at_desc (stock_counts_of self w)) as [|last rest];
    cbn; by destruct (String.eqb (Location.service self) Location.CHECKOUT).
Qed.

(** C2: at a location with at least one stock count, [get_estimated_stock]
    returns the count of a most recent stock count of the location, minus
    the number of tags at the location created strictly after it when the
    service is CHECKOUT, plus that number when the service is CHECKIN. *)
Theorem estimated_stock_from_latest_count (timezone_now : nat → Z)
    (self : Location.t) (w : World) :
  stock_counts_of self w ≠ [] →
  ∃ last,
    last ∈ stock_counts_of self w
    ∧ (∀ c, c ∈ stock_counts_of self w →
         LocationStockCount.created_at c ≤ LocationStockCount.created_at last)
    ∧ let boxes_moved :=
        Z.of_nat (length
          (tags_at_since self (LocationStockCount.created_at last) w)) in
      (Location.service self = Location.CHECKOUT →
         fst (get_estimated_stock timezone_now self w)
         = Return (LocationStockCount.count last - boxes_moved))
      ∧ (Location.service self = Location.CHECKIN →
           fst (get_estimated_stock timezone_now self w)
           = Return (LocationStockCount.count last + boxes_moved)).
Proof.
  intros Hsome. rewrite get_estimated_stock_eq.
  destruct (order_by_created_at_desc (stock_counts_of self w))
    as [|last rest] eqn:Hsort.
  { destruct (Hsome (proj1 (order_by_nil _) Hsort)). }
  destruct (order_by_head _ _ _ Hsort) as [Hin Hmax].
  exists last. split; [exact Hin|]. split; [exact Hmax|].
  cbn [fst]. unfold estimate_from. split; intros ->; reflexivity.
Qed.

Lemma estimated_stock_from_latest_count_witness :
  stock_counts_of Sample.cafe Sample.world
    = [LocationStockCount.mk 1 5 40; LocationStockCount.mk 1 15 30]
  ∧ fst (get_estimated_stock Sample.clock Sample.cafe Sample.world) = Return 29.
Proof.
  split; [reflexivity|].
  destruct (estimated_stock_from_latest_count Sample.clock Sample.cafe
              Sample.world) as (last & Hin & Hmax & Hout & _); [discriminate|].
  rewrite (Hout eq_refl).
  change (stock_counts_of Sample.cafe Sample.world)
    with [LocationStockCount.mk 1 5 40; LocationStockCount.mk 1 15 30]
    in Hin, Hmax.
  apply elem_of_cons in Hin as [->|Hin].
  - specialize (Hmax (LocationStockCount.mk 1 15 30)). cbn in Hmax.
    assert (15 ≤ 5) by (apply Hmax; set_solver). lia.
  - apply list_elem_of_singleton in Hin as ->. reflexivity.
Defined.

Lemma insert_stock_count_changes row w :
  insert_stock_count row (tick_clock w) ≠ w.
Proof.
  intros H. apply (f_equal (λ x, length (stock_counts x))) in H.
  cbn in H. rewrite length_app in H. cbn in H. lia.
Qed.

(** C5: [get_estimated_stock] writes exactly when the location has no
    stock count: it then appends to the stock-count table one row with
    count 0 for the location, stamped by the clock, touches no other
    table, and answers from that row (minus the tags created after it at a
    CHECKOUT location, plus them otherwise); with a stock count present it
    creates no record and leaves the world as it was. *)
Theorem get_estimated_stock_side_effect (timezone_now : nat → Z)
    (self : Location.t) (w : World) :
  (stock_counts_of self w = [] →
     let row := LocationStockCount.mk (Location.id self)
                  (timezone_now (clock_reads w)) 0 in
     let boxes_moved :=
       Z.of_nat (length
         (tags_at_since self (LocationStockCount.created_at row) w)) in
     let w' := snd (get_estimated_stock timezone_now self w) in
     get_estimated_stock timezone_now self w
     = (Return (if String.eqb (Location.service self) Location.CHECKOUT
                then - boxes_moved else boxes_moved),
        insert_stock_count row (tick_clock w))
     ∧ stock_counts w' = stock_counts w ++ [row]
     ∧ stock_counts_of self w' = [row]
     ∧ location_tags w' = location_tags w
     ∧ locations w' = locations w
     ∧ plans w' = plans w
     ∧ subscriptions w' = subscriptions w)
  ∧ (stock_counts_of self w ≠ [] →
       snd (get_estimated_stock timezone_now self w) = w)
  ∧ (snd (get_estimated_stock timezone_now self w) ≠ w
     ↔ stock_counts_of self w = [])
  ∧ (stock_counts (snd (get_estimated_stock timezone_now self w))
     ≠ stock_counts w
     ↔ stock_counts_of self w = []).
Proof.
  rewrite get_estimated_stock_eq.
  destruct (order_by_created_at_desc (stock_counts_of self w))
    as [|last rest] eqn:Hsort.
  - apply (proj1 (order_by_nil _)) in Hsort. split; [|split; [|split]].
    + intros _. cbv zeta. cbn [snd]. split.
      { unfold estimate_from, zero_count. cbn.
        by destruct (String.eqb (Location.service self) Location.CHECKOUT). }
      split; [reflexivity|]. split; [|done].
      unfold zero_count, stock_counts_of. cbn [stock_counts insert_stock_count tick_clock].
      rewrite filter_app, filter_cons_True by done.
      unfold stock_counts_of in Hsort. by rewrite Hsort.
    + intros Hne. destruct (Hne Hsort).
    + cbv zeta. cbn [snd]. split; [done|]. intros _.
      apply insert_stock_count_changes.
    + cbv zeta. cbn [snd stock_counts insert_stock_count tick_clock].
      split; [done|]. intros _ H.
      apply (f_equal length) in H. rewrite length_app in H. cbn in H. lia.
  - assert (Hne : stock_counts_of self w ≠ []).
    { intros H. apply (proj2 (order_by_nil _)) in H. congruence. }
    cbn [snd]. split; [done|]. split; [done|]. split; split; done.
Qed.

Lemma get_estimated_stock_side_effect_witness :
  stock_counts_of Sample.depot Sample.world = []
  ∧ fst (get_estimated_stock Sample.clock Sample.depot Sample.world) = Return 0
  ∧ stock_counts
      (snd (get_estimated_stock Sample.clock Sample.depot Sample.world))
    = stock_counts Sample.world ++ [LocationStockCount.mk 3 100 0]
  ∧ snd (get_estimated_stock Sample.clock Sample.cafe Sample.world)
    = Sample.world.
Proof.
  split; [reflexivity|].
  destruct (proj1 (get_estimated_stock_side_effect Sample.clock Sample.depot
                     Sample.world) eq_refl) as (Hrun & Hcounts & _).
  split; [by rewrite Hrun|]. split; [exact Hcounts|].
  apply (get_estimated_stock_side_effect Sample.clock Sample.cafe
           Sample.world). discriminate.
Defined.

(** ** Append-only tables *)

(** C6: none of [available_boxes], [boxes_checked_out], [can_checkout],
    [can_checkin], [can_tag_location], [tag_location], [set_stock] and
    [get_estimated_stock] changes or removes a stored tag or stock count:
    the tables before are prefixes of the tables after. *)
Theorem tags_and_counts_append_only (timezone_now : nat → Z)
    (op : Operation) (w : World) :
  location_tags w `prefix_of` location_tags (run timezone_now op w)
  ∧ stock_counts w `prefix_of` stock_counts (run timezone_now op w).
Proof.
  destruct op as [s|s|s n|s n|s l n|s l n|l c|l]; cbn [run].
  1-4: by read_balance.
  - destruct (String.eqb (Location.service l) Location.CHECKIN) eqn:Hin;
      read_balance; by rewrite Hin, available_boxes_eq.
  - unfold tag_location. rewrite tag_location_loop_eq. cbn.
    split; [apply prefix_app_r|]; done.
  - unfold set_stock, LocationStockCount_create, bind at 1, now.
    destruct (negb (integer_fits c)); [|destruct (c <? 0)]; cbn;
      split; try done. by apply prefix_app_r.
  - rewrite get_estimated_stock_eq.
    destruct (order_by_created_at_desc (stock_counts_of l w)); cbn;
      split; try done. by apply prefix_app_r.
Qed.

(** ** Billing guards *)

Lemma is_changed_amount (self : Plan.t) :
  is_changed self "amount"
  = match Plan._loaded_values self with
    | None => Return false
    | Some loaded =>
        match loaded !! "amount" with
        | None => Raise (KeyError "amount")
        | Some _ => Return (loaded_amount_differs self)
        end
    end.
Proof.
  unfold is_changed, loaded_amount_differs.
  destruct (Plan._loaded_values self) as [loaded|]; [|done].
  by destruct (loaded !! "amount").
Qed.

(** C7: on a plan that has a [stripe_id], [save] after the amount was
    changed from its loaded value raises [CannotChangeException] and
    leaves the database, the provider and the instance as they were; with
    the amount unchanged [save] does not raise that exception. *)
Theorem save_refuses_amount_change
    (stripe_api : list StripeRequest → StripeRequest → option string)
    (slugify : string → string) (shortuuid_uuid : nat → string) (fuel : nat)
    (self : Plan.t) (w : World) :
  truthy (Plan.stripe_id self) = true →
  (loaded_amount_differs self = true →
     Plan_save stripe_api slugify shortuuid_uuid fuel (self, w)
     = (Raise (CannotChangeException self "amount"), (self, w)))
  ∧ (loaded_amount_differs self = false →
     ∀ model field,
       fst (Plan_save stripe_api slugify shortuuid_uuid fuel (self, w))
       ≠ Raise (CannotChangeException model field)).
Proof.
  intros Hid. split.
  - intros Hdiff.
    unfold Plan_save, bind, gets, lift, raise. cbn [fst].
    rewrite Hid, is_changed_amount, Hdiff.
    unfold loaded_amount_differs in Hdiff.
    destruct (Plan._loaded_values self) as [loaded|]; [|done].
    by destruct (loaded !! "amount").
  - intros Hsame model field.
    unfold Plan_save, Model_save_Plan, bind, gets, lift, raise, ret, modify,
      in_world, stripe_call.
    cbn [fst snd]. rewrite Hid, is_changed_amount, Hsame.
    unfold is_changed.
    repeat case_match; simplify_eq; cbn [fst]; discriminate.
Qed.

Lemma save_refuses_amount_change_witness :
  ∃ p, Plan_get 1 Sample.world = Some p
     ∧ Plan_save Sample.stripe_ok Sample.slugify Sample.shortuuid_uuid 0
         (Plan.set_amount p 3000, Sample.world)
       = (Raise (CannotChangeException (Plan.set_amount p 3000) "amount"),
          (Plan.set_amount p 3000, Sample.world))
     ∧ fst (Plan_save Sample.stripe_ok Sample.slugify Sample.shortuuid_uuid 0
              (p, Sample.world)) = Return tt.
Proof.
  eexists. split; [reflexivity|]. split.
  - apply (save_refuses_amount_change Sample.stripe_ok Sample.slugify
             Sample.shortuuid_uuid 0); reflexivity.
  - vm_compute. reflexivity.
Defined.

(** [save] on a subscription, outcome by outcome. *)
Lemma Model_save_Subscription_eq (self : Subscription.t) (w : World) :
  Model_save_Subscription (self, w)
  = if subscription_fits self then
      (Return tt,
       (self,
        if bool_decide (subscriptions w !! Subscription.id self = None)
        then send_mail {| template_name := "new_subscription";
                          context_subscription := self |}
               (store_subscription self w)
        else store_subscription self w))
    else (Raise DataError, (self, w)).
Proof.
  unfold Model_save_Subscription, new_subscription_email_to_admins, bind,
    gets, modify, ret, raise, in_world. cbn [fst snd].
  destruct (subscription_fits self); [|done].
  by destruct (bool_decide (subscriptions w !! Subscription.id self = None)).
Qed.

(** [update_from_stripe_sub], outcome by outcome. *)
Lemma update_from_stripe_sub_run datetime_fromtimestamp timezone_make_aware
    stripe_subscription force self w :
  update_from_stripe_sub datetime_fromtimestamp timezone_make_aware
    stripe_subscription force (self, w)
  = if truthy (Subscription.stripe_id self) && negb force then
      (Raise (SubscriptionUpdateException self stripe_subscription
                "Subscription already has a Stripe subscription"), (self, w))
    else
      match ends_at_for datetime_fromtimestamp timezone_make_aware
              (StripeSubscription.current_period_end stripe_subscription) with
      | inl e => (Raise (date_exn e), (self, w))
      | inr ends_at =>
          let updated :=
            Subscription.set_stripe self
              (Some (StripeSubscription.id stripe_subscription))
              (StripeSubscription.status stripe_subscription)
              (Some ends_at) in
          if subscription_fits updated then
            (Return tt,
             (updated,
              if bool_decide (subscriptions w !! Subscription.id self = None)
              then send_mail {| template_name := "new_subscription";
                                context_subscription := updated |}
                     (store_subscription updated w)
              else store_subscription updated w))
          else (Raise DataError, (updated, w))
      end.
Proof.
  unfold update_from_stripe_sub, ends_at_for, bind at 1, gets at 1.
  cbn [fst].
  destruct (truthy (Subscription.stripe_id self) && negb force); [done|].
  unfold bind at 1, lift_date at 1.
  destruct (datetime_fromtimestamp _) as [e|naive]; [done|].
  unfold bind at 1, lift_date at 1.
  destruct (datetime_add naive (timedelta_days 3)) as [e|later]; [done|].
  unfold bind at 1, lift_date at 1.
  destruct (timezone_make_aware later) as [e|ends_at]; [done|].
  unfold Model_save_Subscription, new_subscription_email_to_admins, bind,
    gets, modify, ret, raise, in_world. cbv zeta.
  cbn [fst snd Subscription.set_stripe Subscription.id Subscription.name
       Subscription.user Subscription.plan Subscription.starts_at
       Subscription.ends_at Subscription.stripe_id Subscription.stripe_status
       Subscription.corporate_code].
  destruct (subscription_fits _); [|done].
  by destruct (bool_decide (subscriptions w !! Subscription.id self = None)).
Qed.

(** C8, as amended: [update_from_stripe_sub] raises
    [SubscriptionUpdateException] exactly when the subscription has a
    non-empty [stripe_id] and [force] is false, and then leaves the
    instance and the database as they were. Otherwise the end date is
    computed first. When that raises, the exception propagates and the
    instance and the database are as they were. When it succeeds,
    [stripe_id], [stripe_status] and [ends_at] are set from the provider's
    subscription and the instance so updated is saved: the call ends as
    [save] on it does, which stores the row whenever its values fit the
    columns of the table. *)
Theorem update_from_stripe_sub_guard
    (datetime_fromtimestamp timezone_make_aware : Z → DateError + Z)
    (stripe_subscription : StripeSubscription.t) (force : bool)
    (self : Subscription.t) (w : World) :
  let result :=
    update_from_stripe_sub datetime_fromtimestamp timezone_make_aware
      stripe_subscription force (self, w) in
  let blocked := truthy (Subscription.stripe_id self) && negb force in
  ((∃ s ss msg, fst result = Raise (SubscriptionUpdateException s ss msg))
   ↔ blocked = true)
  ∧ (blocked = true → snd result = (self, w))
  ∧ (blocked = false →
       match ends_at_for datetime_fromtimestamp timezone_make_aware
               (StripeSubscription.current_period_end stripe_subscription) with
       | inr ends_at =>
           let updated :=
             Subscription.set_stripe self
               (Some (StripeSubscription.id stripe_subscription))
               (StripeSubscription.status stripe_subscription)
               (Some ends_at) in
           fst (snd result) = updated
           ∧ result = Model_save_Subscription (updated, w)
           ∧ (subscription_fits updated = true →
                fst result = Return tt
                ∧ subscriptions (snd (snd result)) !! Subscription.id self
                  = Some updated)
       | inl e => result = (Raise (date_exn e), (self, w))
       end).
Proof.
  cbv zeta. rewrite update_from_stripe_sub_run.
  destruct (truthy (Subscription.stripe_id self) && negb force).
  - cbn [fst snd]. split; [split; [done|eauto]|]. split; done.
  - destruct (ends_at_for _ _ _) as [e|ends_at]; cbv zeta; cbn [fst snd].
    + split; [split; [intros (? & ? & ? & H); by destruct e|intros [=]]|].
      split; [intros [=]|done].
    + rewrite Model_save_Subscription_eq.
      change (Subscription.id (Subscription.set_stripe self _ _ _))
        with (Subscription.id self).
      destruct (subscription_fits _); cbn [fst snd].
      * split; [split; [intros (? & ? & ? & ?); discriminate|intros [=]]|].
        split; [intros [=]|]. intros _.
        split; [reflexivity|]. split; [reflexivity|].
        intros _. split; [reflexivity|].
        destruct (bool_decide (subscriptions w !! Subscription.id self = None));
          cbn; apply lookup_insert_eq.
      * split; [split; [intros (? & ? & ? & ?); discriminate|intros [=]]|].
        split; [intros [=]|]. intros _. split; [reflexivity|].
        split; [reflexivity|]. intros [=].
Qed.

Lemma update_from_stripe_sub_guard_witness :
  fst (update_from_stripe_sub Sample.fromtimestamp Sample.make_aware
         Sample.stripe_sub false (Sample.sub7, Sample.world)) = Return tt
  ∧ Subscription.stripe_id
      (fst (snd (update_from_stripe_sub Sample.fromtimestamp Sample.make_aware
                   Sample.stripe_sub false (Sample.sub7, Sample.world))))
    = Some "sub_9"
  ∧ Subscription.ends_at
      (fst (snd (update_from_stripe_sub Sample.fromtimestamp Sample.make_aware
                   Sample.stripe_sub false (Sample.sub7, Sample.world))))
    = Some 260200
  ∧ subscriptions
      (snd (snd (update_from_stripe_sub Sample.fromtimestamp Sample.make_aware
                   Sample.stripe_sub false (Sample.sub7, Sample.world))))
      !! 7%nat
    = Some (Subscription.set_stripe Sample.sub7 (Some "sub_9") "trialing"
              (Some 260200))
  ∧ snd (update_from_stripe_sub Sample.fromtimestamp Sample.make_aware
           Sample.stripe_sub false (Sample.sub8, Sample.world))
    = (Sample.sub8, Sample.world).
Proof.
  pose proof (update_from_stripe_sub_guard Sample.fromtimestamp
                Sample.make_aware Sample.stripe_sub false Sample.sub7
                Sample.world) as (_ & _ & Hset).
  pose proof (update_from_stripe_sub_guard Sample.fromtimestamp
                Sample.make_aware Sample.stripe_sub false Sample.sub8
                Sample.world) as (_ & Hkeep & _).
  destruct (Hset eq_refl) as (Hself & _ & Hsaved).
  destruct (Hsaved eq_refl) as (Hret & Hrow).
  split; [exact Hret|]. split; [by rewrite Hself|]. split; [by rewrite Hself|].
  split; [exact Hrow|]. exact (Hkeep eq_refl).
Defined.

(** C8, as stated, fails: subscriber 7 has no [stripe_id], so the update
    is not refused, but the provider's period end, 2^63, is beyond what
    [datetime.fromtimestamp] can hold; [OverflowError] is raised before any
    field is assigned, and nothing is set or saved. *)
Lemma update_from_stripe_sub_overflow :
  truthy (Subscription.stripe_id Sample.sub7) && negb false = false
  ∧ fst (update_from_stripe_sub Sample.fromtimestamp Sample.make_aware
           Sample.stripe_sub_overflow false (Sample.sub7, Sample.world))
    = Raise OverflowError
  ∧ Subscription.stripe_id
      (fst (snd (update_from_stripe_sub Sample.fromtimestamp Sample.make_aware
                   Sample.stripe_sub_overflow false
                   (Sample.sub7, Sample.world))))
    ≠ Some (StripeSubscription.id Sample.stripe_sub_overflow)
  ∧ subscriptions
      (snd (snd (update_from_stripe_sub Sample.fromtimestamp Sample.make_aware
                   Sample.stripe_sub_overflow false
                   (Sample.sub7, Sample.world))))
    = subscriptions Sample.world.
Proof.
  split; [reflexivity|]. split; [reflexivity|]. split; [discriminate|].
  reflexivity.
Qed.

Lemma guards_follow_balance_witness :
  fst (available_boxes Sample.sub7 Sample.world) = Return 1
  ∧ can_checkout Sample.sub7 1 Sample.world = (Return true, Sample.world)
  ∧ can_checkout Sample.sub7 2 Sample.world = (Return false, Sample.world)
  ∧ can_checkin Sample.sub7 2 Sample.world = (Return true, Sample.world)
  ∧ can_checkin Sample.sub7 3 Sample.world = (Return false, Sample.world)
  ∧ can_tag_location Sample.sub7 Sample.dropbox 2
    = can_checkin Sample.sub7 2.
Proof.
  destruct (guards_follow_balance Sample.sub7 Sample.dropbox 2 Sample.world)
    as (a & Ha & _ & _ & Hin & _).
  split; [reflexivity|]. do 4 (split; [reflexivity|]). exact (Hin eq_refl).
Defined.

(** ** Tagging and the balance *)

(** X1: [boxes_checked_out] is the signed tag sum itself, whatever the
    plan: checkouts less checkins plus tags at other locations. Two
    instances of one subscription row get the same answer even when their
    plans differ, and the world is not touched. *)
Theorem boxes_checked_out_counts (self other : Subscription.t) (w : World) :
  boxes_checked_out self w
  = (Return (checkouts self w - checkins self w + other_tags self w), w)
  ∧ (Subscription.id other = Subscription.id self →
     boxes_checked_out other w = boxes_checked_out self w).
Proof.
  assert (Hsum : ∀ s, boxes_checked_out s w = (Return (checked_out_sum s w), w)).
  { intros s. read_balance. do 2 f_equal. lia. }
  split.
  - by rewrite Hsum, checked_out_sum_counts.
  - intros Hid. rewrite !Hsum. unfold checked_out_sum, tags_of_subscription.
    by rewrite Hid.
Qed.

Lemma tag_location_eq timezone_now self location n w :
  tag_location timezone_now self location n w
  = (let rows := new_tags timezone_now self location (clock_reads w)
                   (Z.to_nat n) in
     (Return rows, with_new_tags rows w)).
Proof. unfold tag_location. by rewrite tag_location_loop_eq. Qed.

Lemma with_new_tags_nil w : with_new_tags [] w = w.
Proof.
  unfold with_new_tags. cbn. rewrite app_nil_r, Nat.add_0_r. by destruct w.
Qed.

(** X2: [tag_location] with a count of zero or less creates nothing: it
    returns the empty list and leaves the world as it was. *)
Theorem tag_location_nonpositive (timezone_now : nat → Z)
    (self : Subscription.t) (location : Location.t) (n : Z) (w : World) :
  n ≤ 0 →
  tag_location timezone_now self location n w = (Return [], w).
Proof.
  intros Hn. rewrite tag_location_eq.
  replace (Z.to_nat n) with 0%nat by lia. cbn. by rewrite with_new_tags_nil.
Qed.

Lemma tag_location_nonpositive_witness :
  tag_location Sample.clock Sample.sub7 Sample.cafe (-3) Sample.world
  = (Return [], Sample.world).
Proof. apply tag_location_nonpositive. lia. Defined.

(** The balance after [tag_location] at a stored location. *)
Lemma balance_after_tag_location timezone_now self location n w :
  0 ≤ n →
  locations w !! Location.id location = Some location →
  available_boxes self (snd (tag_location timezone_now self location n w))
  = (let w' := snd (tag_location timezone_now self location n w) in
     let a := Subscription.number_of_boxes self - checked_out_sum self w in
     (Return (if String.eqb (Location.service location) Location.CHECKIN
              then a + n else a - n), w')).
Proof.
  intros Hn Hloc. rewrite tag_location_eq. cbv zeta. cbn [snd].
  rewrite available_boxes_eq. f_equal. f_equal.
  set (rows := new_tags _ _ _ _ _).
  rewrite (checked_out_sum_app self w _ rows); [|done|done|].
  2:{ eapply Forall_impl; [apply new_tags_link|]. by intros t [? _]. }
  unfold rows.
  rewrite (case_sum_new_tags _ _ _ _ _ _
    (if String.eqb (Location.service location) Location.CHECKOUT then 1
     else if String.eqb (Location.service location) Location.CHECKIN then -1
     else 1)).
  2:{ unfold case_checked_out. cbn [LocationTag.location]. by rewrite Hloc. }
  destruct (String.eqb_spec (Location.service location) Location.CHECKOUT)
    as [->|_]; [cbn; lia|].
  destruct (String.eqb (Location.service location) Location.CHECKIN); lia.
Qed.

(** X3: at a stored location, [tag_location(location, n)] with [n >= 0]
    raises [available_boxes] by [n] when the service is CHECKIN and lowers
    it by [n] for every other service. *)
Theorem tag_location_moves_balance (timezone_now : nat → Z)
    (self : Subscription.t) (location : Location.t) (n a : Z) (w : World) :
  0 ≤ n →
  locations w !! Location.id location = Some location →
  fst (available_boxes self w) = Return a →
  fst (available_boxes self
         (snd (tag_location timezone_now self location n w)))
  = Return (if String.eqb (Location.service location) Location.CHECKIN
            then a + n else a - n).
Proof.
  intros Hn Hloc Ha. rewrite available_boxes_eq in Ha. cbn [fst] in Ha.
  rewrite balance_after_tag_location by done. cbv zeta. cbn [fst].
  by inversion Ha.
Qed.

Lemma tag_location_moves_balance_witness :
  fst (available_boxes Sample.sub7
         (snd (tag_location Sample.clock Sample.sub7 Sample.dropbox 2
                 Sample.world))) = Return 3
  ∧ fst (available_boxes Sample.sub7
           (snd (tag_location Sample.clock Sample.sub7 Sample.depot 2
                   Sample.world))) = Return (-1).
Proof.
  split.
  - apply (tag_location_moves_balance Sample.clock Sample.sub7 Sample.dropbox
             2 1); [lia|reflexivity|reflexivity].
  - apply (tag_location_moves_balance Sample.clock Sample.sub7 Sample.depot
             2 1); [lia|reflexivity|reflexivity].
Defined.

(** X4: tagging that the guard allows keeps the balance within bounds: if
    [0 <= available_boxes <= number_of_boxes] and
    [can_tag_location(location, n)] answers true for a stored location and
    [n >= 0], then after [tag_location(location, n)] the balance is again
    between 0 and [number_of_boxes]. *)
Theorem guarded_tagging_keeps_bounds (timezone_now : nat → Z)
    (self : Subscription.t) (location : Location.t) (n a : Z) (w : World) :
  0 ≤ n →
  locations w !! Location.id location = Some location →
  fst (available_boxes self w) = Return a →
  0 ≤ a ≤ Subscription.number_of_boxes self →
  fst (can_tag_location self location n w) = Return true →
  ∃ a', fst (available_boxes self
               (snd (tag_location timezone_now self location n w)))
        = Return a'
        ∧ 0 ≤ a' ≤ Subscription.number_of_boxes self.
Proof.
  intros Hn Hloc Ha Hbounds Hguard.
  rewrite available_boxes_eq in Ha. cbn [fst] in Ha. inversion Ha as [Ha'].
  rewrite balance_after_tag_location by done. cbv zeta. cbn [fst].
  eexists. split; [reflexivity|]. rewrite Ha'.
  revert Hguard. unfold can_tag_location.
  destruct (String.eqb (Location.service location) Location.CHECKIN);
    read_balance; cbn [fst]; rewrite Ha'; intros [= Hg].
  - apply Z.leb_le in Hg. lia.
  - apply Z.geb_le in Hg. lia.
Qed.

Lemma guarded_tagging_keeps_bounds_witness :
  ∃ a', fst (available_boxes Sample.sub7
               (snd (tag_location Sample.clock Sample.sub7 Sample.cafe 1
                       Sample.world))) = Return a'
        ∧ 0 ≤ a' ≤ 3.
Proof.
  apply (guarded_tagging_keeps_bounds Sample.clock Sample.sub7 Sample.cafe
           1 1); [lia|reflexivity|reflexivity|cbn; lia|reflexivity].
Defined.

(** X5: [tag_location] for one subscription leaves the balance of every
    other subscription, the locations and the stock counts as they were. *)
Theorem tag_location_frame (timezone_now : nat → Z)
    (self other : Subscription.t) (location : Location.t) (n : Z) (w : World) :
  Subscription.id other ≠ Subscription.id self →
  let w' := snd (tag_location timezone_now self location n w) in
  fst (available_boxes other w') = fst (available_boxes other w)
  ∧ locations w' = locations w
  ∧ stock_counts w' = stock_counts w.
Proof.
  intros Hne. cbv zeta. rewrite tag_location_eq. cbv zeta. cbn [snd].
  split; [|done]. rewrite !available_boxes_eq. cbn [fst]. do 2 f_equal.
  unfold checked_out_sum, tags_of_subscription. cbn [location_tags with_new_tags].
  rewrite filter_app.
  assert (Hnone : filter
            (λ t, LocationTag.subscription t = Subscription.id other)
            (new_tags timezone_now self location (clock_reads w) (Z.to_nat n))
          = []).
  { unfold new_tags. generalize (seq (clock_reads w) (Z.to_nat n)).
    intros ks. induction ks as [|k ks IH]; [done|].
    cbn [map]. rewrite filter_cons_False; [exact IH|]. cbn. congruence. }
  rewrite Hnone, app_nil_r. reflexivity.
Qed.

Lemma tag_location_frame_witness :
  fst (available_boxes Sample.sub8
         (snd (tag_location Sample.clock Sample.sub7 Sample.cafe 2
                 Sample.world)))
  = Return 1.
Proof.
  destruct (tag_location_frame Sample.clock Sample.sub7 Sample.sub8
              Sample.cafe 2 Sample.world) as [H _]; [discriminate|].
  rewrite H. reflexivity.
Defined.

(** ** Stock counts and the estimate *)

Lemma order_by_singleton (c : LocationStockCount.t) :
  order_by_created_at_desc [c] = [c].
Proof. reflexivity. Qed.

Lemma stock_counts_of_insert self row w :
  LocationStockCount.location row = Location.id self →
  stock_counts_of self (insert_stock_count row (tick_clock w))
  = stock_counts_of self w ++ [row].
Proof.
  intros Hrow. unfold stock_counts_of. cbn [stock_counts insert_stock_count tick_clock].
  by rewrite filter_app, filter_cons_True.
Qed.

(** X6: asking for the estimate twice in a row gives the same answer, and
    the second call writes nothing: at most one zero row is ever created
    for a location. *)
Theorem get_estimated_stock_twice (timezone_now : nat → Z)
    (self : Location.t) (w : World) :
  get_estimated_stock timezone_now self
    (snd (get_estimated_stock timezone_now self w))
  = (fst (get_estimated_stock timezone_now self w),
     snd (get_estimated_stock timezone_now self w)).
Proof.
  rewrite (get_estimated_stock_eq timezone_now self w).
  destruct (order_by_created_at_desc (stock_counts_of self w))
    as [|last rest] eqn:Hsort.
  - apply (proj1 (order_by_nil _)) in Hsort. cbv zeta. cbn [fst snd].
    rewrite get_estimated_stock_eq.
    rewrite stock_counts_of_insert by done.
    by rewrite Hsort, app_nil_l, order_by_singleton.
  - cbn [fst snd]. by rewrite get_estimated_stock_eq, Hsort.
Qed.

(** The row an ordering of [qs ++ [row]] starts with, when [row] is
    stamped after every row of [qs]. *)
Lemma order_by_newest (qs : list LocationStockCount.t) row :
  (∀ c, c ∈ qs →
     LocationStockCount.created_at c < LocationStockCount.created_at row) →
  ∃ rest, order_by_created_at_desc (qs ++ [row]) = row :: rest.
Proof.
  intros Hnew.
  destruct (order_by_created_at_desc (qs ++ [row])) as [|h rest] eqn:Hsort.
  { apply (proj1 (order_by_nil _)) in Hsort. by destruct qs. }
  exists rest. f_equal.
  destruct (order_by_head _ _ _ Hsort) as [Hin Hmax].
  apply elem_of_app in Hin as [Hin|Hin].
  - specialize (Hnew h Hin). specialize (Hmax row). 
    assert (LocationStockCount.created_at row ≤ LocationStockCount.created_at h)
      by (apply Hmax; set_solver).
    lia.
  - by apply list_elem_of_singleton in Hin.
Qed.

Lemma set_stock_eq timezone_now self count w :
  set_stock timezone_now self count w
  = (let row := LocationStockCount.mk (Location.id self)
                  (timezone_now (clock_reads w)) count in
     if negb (integer_fits count) then (Raise DataError, tick_clock w)
     else if count <? 0 then (Raise IntegrityError, tick_clock w)
     else (Return row, insert_stock_count row (tick_clock w))).
Proof.
  unfold set_stock, LocationStockCount_create, bind at 1, now. cbv zeta.
  destruct (negb (integer_fits count)); [done|]. by destruct (count <? 0).
Qed.

Lemma integer_fits_range (n : Z) :
  0 ≤ n → n ≤ integer_max → integer_fits n = true ∧ (n <? 0) = false.
Proof.
  intros Hlo Hhi. unfold integer_fits, integer_min. split.
  - apply andb_true_iff. split; apply Z.leb_le; lia.
  - apply Z.ltb_ge. lia.
Qed.

(** X7: [set_stock(count)] with a [count] the column accepts, from 0 to
    2147483647, appends the count to the stock counts and returns its
    row. When it is stamped later than every earlier stock count
    of the location, [get_estimated_stock] then answers from the new
    count: [count] less the tags stamped after it at a CHECKOUT location,
    [count] plus them otherwise, and exactly [count] when no tag of the
    location is stamped after it. *)
Theorem set_stock_then_estimate (timezone_now : nat → Z)
    (self : Location.t) (count : Z) (w : World) :
  0 ≤ count →
  count ≤ integer_max →
  (∀ c, c ∈ stock_counts_of self w →
     LocationStockCount.created_at c < timezone_now (clock_reads w)) →
  let row := LocationStockCount.mk (Location.id self)
               (timezone_now (clock_reads w)) count in
  let w' := snd (set_stock timezone_now self count w) in
  let boxes_moved :=
    Z.of_nat (length (tags_at_since self (timezone_now (clock_reads w)) w)) in
  fst (set_stock timezone_now self count w) = Return row
  ∧ stock_counts w' = stock_counts w ++ [row]
  ∧ get_estimated_stock timezone_now self w'
    = (Return (if String.eqb (Location.service self) Location.CHECKOUT
               then count - boxes_moved else count + boxes_moved), w')
  ∧ ((∀ t, t ∈ location_tags w →
        LocationTag.location t = Location.id self →
        LocationTag.created_at t ≤ timezone_now (clock_reads w)) →
     fst (get_estimated_stock timezone_now self w') = Return count).
Proof.
  intros Hcount Hmax Hnew. cbv zeta.
  set (row := LocationStockCount.mk (Location.id self)
                (timezone_now (clock_reads w)) count).
  rewrite set_stock_eq. cbv zeta. fold row.
  destruct (integer_fits_range count Hcount Hmax) as [-> ->]. cbn [negb].
  cbn [fst snd]. split; [reflexivity|]. split; [reflexivity|].
  assert (Hest : get_estimated_stock timezone_now self
                   (insert_stock_count row (tick_clock w))
                 = (Return (estimate_from self row w),
                    insert_stock_count row (tick_clock w))).
  { rewrite get_estimated_stock_eq, stock_counts_of_insert by done.
    destruct (order_by_newest (stock_counts_of self w) row Hnew) as [rest ->].
    reflexivity. }
  rewrite Hest. split; [reflexivity|].
  intros Hold. cbn [fst]. unfold estimate_from, tags_at_since.
  assert (Hnone : filter
            (λ t, LocationTag.location t = Location.id self
                  ∧ LocationStockCount.created_at row < LocationTag.created_at t)
            (location_tags w) = []).
  { induction (location_tags w) as [|t ts IH]; [done|].
    rewrite filter_cons_False.
    - apply IH. intros t' Ht'. apply Hold. by right.
    - intros [Hl Hlt]. specialize (Hold t (list_elem_of_here _ _) Hl).
      cbn in Hlt. lia. }
  rewrite Hnone. cbn [length LocationStockCount.count row].
  change (Z.of_nat 0) with 0. rewrite Z.sub_0_r, Z.add_0_r.
  by destruct (String.eqb (Location.service self) Location.CHECKOUT).
Qed.

Lemma set_stock_then_estimate_witness :
  fst (get_estimated_stock Sample.clock Sample.cafe
         (snd (set_stock Sample.clock Sample.cafe 12 Sample.world)))
  = Return 12.
Proof.
  refine (proj2 (proj2 (proj2 (set_stock_then_estimate Sample.clock
                                  Sample.cafe 12 Sample.world _ _ _))) _).
  - lia.
  - unfold integer_max. lia.
  - intros c Hc.
    change (stock_counts_of Sample.cafe Sample.world)
      with [LocationStockCount.mk 1 5 40; LocationStockCount.mk 1 15 30] in Hc.
    apply elem_of_cons in Hc as [->|Hc]; [reflexivity|].
    apply list_elem_of_singleton in Hc as ->. reflexivity.
  - intros t Ht _. cbn in Ht.
    repeat (apply elem_of_cons in Ht as [->|Ht]; [cbn; unfold Sample.clock; lia|]).
    by apply elem_of_nil in Ht.
Defined.

Lemma tags_at_since_new_tags timezone_now s self since from k :
  (∀ i, (i < k)%nat → since < timezone_now (from + i)%nat) →
  filter (λ t, LocationTag.location t = Location.id self
               ∧ since < LocationTag.created_at t)
         (new_tags timezone_now s self from k)
  = new_tags timezone_now s self from k.
Proof.
  unfold new_tags. revert from.
  induction k as [|k IH]; intros from Hlate; [done|].
  cbn [seq map]. rewrite filter_cons_True.
  - f_equal. apply IH. intros i Hi.
    replace (S from + i)%nat with (from + S i)%nat by lia. apply Hlate. lia.
  - split; [done|]. cbn. specialize (Hlate 0%nat).
    rewrite Nat.add_0_r in Hlate. apply Hlate. lia.
Qed.

(** X8: once a location has a stock count, [n >= 0] tags created at it
    after every stock count of the location move the estimate by [n]: down
    at a CHECKOUT location, up at any other, whichever subscription
    tags. *)
Theorem tags_after_count_move_estimate (timezone_now : nat → Z)
    (s : Subscription.t) (self : Location.t) (n e : Z) (w : World) :
  0 ≤ n →
  stock_counts_of self w ≠ [] →
  (∀ c i, c ∈ stock_counts_of self w → (i < Z.to_nat n)%nat →
     LocationStockCount.created_at c < timezone_now (clock_reads w + i)%nat) →
  fst (get_estimated_stock timezone_now self w) = Return e →
  fst (get_estimated_stock timezone_now self
         (snd (tag_location timezone_now s self n w)))
  = Return (if String.eqb (Location.service self) Location.CHECKOUT
            then e - n else e + n).
Proof.
  intros Hn Hsome Hlate He. rewrite tag_location_eq. cbv zeta. cbn [snd].
  rewrite get_estimated_stock_eq in He. rewrite get_estimated_stock_eq.
  change (stock_counts_of self (with_new_tags ?rows w))
    with (stock_counts_of self w).
  destruct (order_by_created_at_desc (stock_counts_of self w))
    as [|last rest] eqn:Hsort.
  { destruct (Hsome (proj1 (order_by_nil _) Hsort)). }
  destruct (order_by_head _ _ _ Hsort) as [Hin _].
  cbn [fst] in *. inversion He as [He']. f_equal.
  unfold estimate_from, tags_at_since. cbn [location_tags with_new_tags].
  rewrite filter_app, tags_at_since_new_tags, length_app, new_tags_length.
  - destruct (String.eqb (Location.service self) Location.CHECKOUT); lia.
  - intros i Hi. by apply Hlate.
Qed.

Lemma tags_after_count_move_estimate_witness :
  fst (get_estimated_stock Sample.clock Sample.cafe Sample.world) = Return 29
  ∧ fst (get_estimated_stock Sample.clock Sample.cafe
           (snd (tag_location Sample.clock Sample.sub8 Sample.cafe 3
                   Sample.world))) = Return 26.
Proof.
  split; [reflexivity|].
  apply (tags_after_count_move_estimate Sample.clock Sample.sub8 Sample.cafe
           3 29); [lia|discriminate| |reflexivity].
  intros c i Hc _.
  change (stock_counts_of Sample.cafe Sample.world)
    with [LocationStockCount.mk 1 5 40; LocationStockCount.mk 1 15 30] in Hc.
  unfold Sample.clock.
  apply elem_of_cons in Hc as [->|Hc]; [cbn; lia|].
  apply list_elem_of_singleton in Hc as ->. cbn. lia.
Defined.

(** X9: a tag at another location, or a tag stamped no later than some
    stock count of the location, does not change the location's estimate
    (only tags stamped strictly after the latest count are counted). *)
Theorem tag_not_after_count_ignored (timezone_now : nat → Z)
    (self : Location.t) (row : LocationTag.t) (w : World) :
  stock_counts_of self w ≠ [] →
  (LocationTag.location row ≠ Location.id self
   ∨ ∃ c, c ∈ stock_counts_of self w
          ∧ LocationTag.created_at row ≤ LocationStockCount.created_at c) →
  fst (get_estimated_stock timezone_now self (insert_location_tag row w))
  = fst (get_estimated_stock timezone_now self w).
Proof.
  intros Hsome Hrow. rewrite !get_estimated_stock_eq.
  change (stock_counts_of self (insert_location_tag row w))
    with (stock_counts_of self w).
  destruct (order_by_created_at_desc (stock_counts_of self w))
    as [|last rest] eqn:Hsort.
  { destruct (Hsome (proj1 (order_by_nil _) Hsort)). }
  destruct (order_by_head _ _ _ Hsort) as [_ Hmax].
  cbn [fst]. f_equal. unfold estimate_from, tags_at_since.
  cbn [location_tags insert_location_tag].
  rewrite filter_app, filter_cons_False, filter_nil, app_nil_r; [done|].
  intros [Hloc Hlt]. destruct Hrow as [Hother|(c & Hc & Hle)]; [done|].
  specialize (Hmax c Hc). lia.
Qed.

Lemma tag_not_after_count_ignored_witness :
  fst (get_estimated_stock Sample.clock Sample.cafe
         (insert_location_tag (LocationTag.mk 8 1 15) Sample.world))
  = Return 29.
Proof.
  rewrite (tag_not_after_count_ignored Sample.clock Sample.cafe
             (LocationTag.mk 8 1 15) Sample.world); [reflexivity|discriminate|].
  right. exists (LocationStockCount.mk 1 15 30). split; [|cbn; lia].
  change (stock_counts_of Sample.cafe Sample.world)
    with [LocationStockCount.mk 1 5 40; LocationStockCount.mk 1 15 30].
  set_solver.
Defined.

(** ** Subscriptions and the provider *)

Lemma map_fold_max_bound {A} (m : gmap nat A) (k : nat) :
  is_Some (m !! k) →
  (k ≤ map_fold (λ k _ acc, Nat.max k acc) 0 m)%nat.
Proof.
  revert k.
  apply (map_fold_weak_ind (λ r m, ∀ k, is_Some (m !! k) → (k ≤ r)%nat)).
  - intros k [x Hx]. by rewrite lookup_empty in Hx.
  - intros i x m' r Hi IH k Hk.
    destruct (decide (k = i)) as [->|Hne]; [lia|].
    rewrite lookup_insert_ne in Hk by done. specialize (IH k Hk). lia.
Qed.

Lemma next_key_fresh {A} (m : gmap nat A) :
  m !! S (map_fold (λ k _ acc, Nat.max k acc) 0%nat m) = None.
Proof.
  destruct (m !! S _) eqn:H; [|done].
  assert (Hs : is_Some (m !! S (map_fold (λ k _ acc, Nat.max k acc) 0%nat m)))
    by eauto.
  apply map_fold_max_bound in Hs. lia.
Qed.

(** A call of [update_from_stripe_sub] that returns was not refused,
    converted the period end and wrote values that fit their columns. *)
Lemma update_from_stripe_sub_returns datetime_fromtimestamp
    timezone_make_aware stripe_subscription force self w :
  fst (update_from_stripe_sub datetime_fromtimestamp timezone_make_aware
         stripe_subscription force (self, w)) = Return tt →
  truthy (Subscription.stripe_id self) && negb force = false
  ∧ ∃ ends_at,
      ends_at_for datetime_fromtimestamp timezone_make_aware
        (StripeSubscription.current_period_end stripe_subscription)
      = inr ends_at
      ∧ subscription_fits
          (Subscription.set_stripe self
             (Some (StripeSubscription.id stripe_subscription))
             (StripeSubscription.status stripe_subscription) (Some ends_at))
        = true.
Proof.
  rewrite update_from_stripe_sub_run.
  destruct (truthy (Subscription.stripe_id self) && negb force);
    [discriminate|].
  destruct (ends_at_for _ _ _) as [e|ends_at]; [discriminate|]. cbv zeta.
  destruct (subscription_fits _) eqn:Hfits; [|discriminate]. eauto.
Qed.

(** X10: an [update_from_stripe_sub] that returns writes one subscription
    row and nothing else: every other subscription, the plans, locations,
    tags, stock counts and provider log stay as they were, and a
    "new_subscription" mail goes out exactly when the subscription was not
    stored before. *)
Theorem update_from_stripe_sub_frame
    (datetime_fromtimestamp timezone_make_aware : Z → DateError + Z)
    (stripe_subscription : StripeSubscription.t) (force : bool)
    (self : Subscription.t) (w : World) :
  fst (update_from_stripe_sub datetime_fromtimestamp timezone_make_aware
         stripe_subscription force (self, w)) = Return tt →
  let σ' := snd (update_from_stripe_sub datetime_fromtimestamp
                   timezone_make_aware stripe_subscription force (self, w)) in
  subscriptions σ'.2 !! Subscription.id self = Some σ'.1
  ∧ (∀ k, k ≠ Subscription.id self →
       subscriptions σ'.2 !! k = subscriptions w !! k)
  ∧ outbox σ'.2
    = outbox w
      ++ (if bool_decide (subscriptions w !! Subscription.id self = None)
          then [{| template_name := "new_subscription";
                   context_subscription := σ'.1 |}]
          else [])
  ∧ plans σ'.2 = plans w
  ∧ locations σ'.2 = locations w
  ∧ location_tags σ'.2 = location_tags w
  ∧ stock_counts σ'.2 = stock_counts w
  ∧ stripe_log σ'.2 = stripe_log w.
Proof.
  intros Hret. cbv zeta.
  destruct (update_from_stripe_sub_returns _ _ _ _ _ _ Hret)
    as [Hfree (ends_at & Hends & Hfits)].
  rewrite update_from_stripe_sub_run, Hfree, Hends. cbv zeta.
  rewrite Hfits. cbn [fst snd].
  destruct (bool_decide (subscriptions w !! Subscription.id self = None));
    cbn; (split; [apply lookup_insert_eq|]);
    (split; [intros k Hk; by rewrite lookup_insert_ne|]);
    by rewrite ?app_nil_r.
Qed.

Lemma update_from_stripe_sub_frame_witness :
  outbox (snd (snd (update_from_stripe_sub Sample.fromtimestamp
                      Sample.make_aware Sample.stripe_sub false
                      (Sample.sub7, Sample.world)))) = []
  ∧ subscriptions
      (snd (snd (update_from_stripe_sub Sample.fromtimestamp
                   Sample.make_aware Sample.stripe_sub false
                   (Sample.sub7, Sample.world)))) !! 8%nat
    = Some Sample.sub8.
Proof.
  destruct (update_from_stripe_sub_frame Sample.fromtimestamp
              Sample.make_aware Sample.stripe_sub false Sample.sub7
              Sample.world eq_refl) as (_ & Hother & Hmail & _).
  split; [exact Hmail|]. rewrite Hother; [reflexivity|discriminate].
Defined.

(** X11: once [update_from_stripe_sub] has returned, having stored a
    non-empty provider id, a second call without [force] raises
    [SubscriptionUpdateException] and changes nothing, whatever the second
    provider object holds; a call with [force] is not refused and returns
    whenever its period end converts and its id and status fit their
    columns of 100 characters. *)
Theorem second_update_needs_force
    (datetime_fromtimestamp timezone_make_aware : Z → DateError + Z)
    (first second : StripeSubscription.t) (force : bool)
    (self : Subscription.t) (w : World) :
  fst (update_from_stripe_sub datetime_fromtimestamp timezone_make_aware
         first force (self, w)) = Return tt →
  StripeSubscription.id first ≠ "" →
  let σ := snd (update_from_stripe_sub datetime_fromtimestamp
                  timezone_make_aware first force (self, w)) in
  update_from_stripe_sub datetime_fromtimestamp timezone_make_aware
    second false σ
  = (Raise (SubscriptionUpdateException σ.1 second
              "Subscription already has a Stripe subscription"), σ)
  ∧ (∀ ends_at,
       ends_at_for datetime_fromtimestamp timezone_make_aware
         (StripeSubscription.current_period_end second) = inr ends_at →
       varchar_fits 100 (StripeSubscription.id second) = true →
       varchar_fits 100 (StripeSubscription.status second) = true →
       fst (update_from_stripe_sub datetime_fromtimestamp timezone_make_aware
              second true σ) = Return tt).
Proof.
  intros Hret Hid. cbv zeta.
  destruct (update_from_stripe_sub_returns _ _ _ _ _ _ Hret)
    as [Hfree (ends_at & Hends & Hfits)].
  rewrite (update_from_stripe_sub_run _ _ first), Hfree, Hends.
  cbv zeta. rewrite Hfits. cbn [snd]. split.
  - rewrite update_from_stripe_sub_run.
    unfold Subscription.set_stripe at 1. cbn [Subscription.stripe_id truthy].
    apply String.eqb_neq in Hid. by rewrite Hid.
  - intros ends_at' Hends' Hid' Hstatus'. rewrite update_from_stripe_sub_run.
    rewrite andb_false_r, Hends'. cbv zeta.
    unfold subscription_fits in *.
    cbn [Subscription.set_stripe Subscription.name Subscription.stripe_id
         Subscription.stripe_status varchar_null_fits] in *.
    apply andb_true_iff in Hfits as [Hfits _].
    apply andb_true_iff in Hfits as [-> _].
    by rewrite Hid', Hstatus'.
Qed.

Lemma second_update_needs_force_witness :
  fst (update_from_stripe_sub Sample.fromtimestamp Sample.make_aware
         Sample.stripe_sub false
         (snd (update_from_stripe_sub Sample.fromtimestamp Sample.make_aware
                 Sample.stripe_sub false (Sample.sub7, Sample.world))))
  = Raise (SubscriptionUpdateException
             (Subscription.set_stripe Sample.sub7 (Some "sub_9") "trialing"
                (Some 260200))
             Sample.stripe_sub
             "Subscription already has a Stripe subscription").
Proof.
  destruct (second_update_needs_force Sample.fromtimestamp Sample.make_aware
              Sample.stripe_sub Sample.stripe_sub false Sample.sub7
              Sample.world eq_refl) as [Hraise _]; [discriminate|].
  rewrite Hraise. reflexivity.
Defined.

Lemma will_auto_renew_truthy (self : Subscription.t) :
  value_truthy (will_auto_renew self) = true
  ↔ truthy (Subscription.stripe_id self) = true
    ∧ Subscription.stripe_status self ∈ ["active"; "trialing"].
Proof.
  unfold will_auto_renew, py_and, has_stripe_subscription, is_stripe_active.
  destruct (Subscription.stripe_id self) as [s|];
    cbn [Plan.of_option_string value_truthy truthy].
  - destruct (negb (String.eqb s "")) eqn:Hs.
    + cbn [value_truthy]. rewrite bool_decide_eq_true. tauto.
    + cbn [value_truthy]. rewrite Hs. split; [done|]. by intros [? _].
  - split; [done|]. by intros [? _].
Qed.

Lemma Subscription_objects_create_eq timezone_now user stripe_id plan
    ends_at stripe_status corporate_code w :
  Subscription_objects_create timezone_now user stripe_id plan ends_at
    stripe_status corporate_code w
  = (let sub := Subscription.mk (next_subscription_id w) None user plan
                  (timezone_now (clock_reads w)) ends_at stripe_id
                  stripe_status corporate_code in
     if subscription_fits sub then
       (Return sub,
        send_mail {| template_name := "new_subscription";
                     context_subscription := sub |}
          (store_subscription sub (tick_clock w)))
     else (Raise DataError, tick_clock w)).
Proof.
  unfold Subscription_objects_create, on_instance,
    Model_save_Subscription, new_subscription_email_to_admins, now,
    bind, gets, modify, ret, raise, in_world.
  cbn [fst snd Subscription.id subscriptions tick_clock].
  pose proof (next_key_fresh (subscriptions w)) as Hfresh.
  fold (next_subscription_id w) in Hfresh.
  change (next_subscription_id (tick_clock w)) with (next_subscription_id w).
  cbv zeta. destruct (subscription_fits _); [|done].
  by rewrite (bool_decide_eq_true_2 _ Hfresh).
Qed.

Lemma create_from_stripe_sub_run timezone_now datetime_fromtimestamp
    timezone_make_aware user plan stripe_subscription corporate_code w :
  create_from_stripe_sub timezone_now datetime_fromtimestamp
    timezone_make_aware user plan stripe_subscription corporate_code w
  = match ends_at_for datetime_fromtimestamp timezone_make_aware
            (StripeSubscription.current_period_end stripe_subscription) with
    | inl e => (Raise (date_exn e), w)
    | inr ends_at =>
        Subscription_objects_create timezone_now user
          (Some (StripeSubscription.id stripe_subscription)) plan
          (Some ends_at) (StripeSubscription.status stripe_subscription)
          corporate_code w
    end.
Proof.
  unfold create_from_stripe_sub, ends_at_for, bind, lift_date.
  destruct (datetime_fromtimestamp _) as [e|naive]; [done|].
  destruct (datetime_add naive (timedelta_days 3)) as [e|later]; [done|].
  destruct (timezone_make_aware later) as [e|ends_at]; [done|].
  by destruct corporate_code.
Qed.

(** X12: [create_from_stripe_sub] first converts the period end. When
    that raises, the exception propagates and the world is untouched: no
    row, no mail, no clock reading. Otherwise, for a provider id and status
    that fit their columns of 100 characters, it inserts one subscription
    under a key that was free, so no stored subscription is overwritten;
    the new row carries the provider's id and status, [ends_at] three days
    after the period end, [starts_at] from the clock, and one
    "new_subscription" mail is sent. The new subscription [will_auto_renew]
    exactly when the provider id is non-empty and the status is active or
    trialing. *)
Theorem create_from_stripe_sub_inserts (timezone_now : nat → Z)
    (datetime_fromtimestamp timezone_make_aware : Z → DateError + Z)
    (user : nat) (plan : option Plan.t)
    (stripe_subscription : StripeSubscription.t)
    (corporate_code : option nat) (w : World) :
  match ends_at_for datetime_fromtimestamp timezone_make_aware
          (StripeSubscription.current_period_end stripe_subscription) with
  | inl e =>
      create_from_stripe_sub timezone_now datetime_fromtimestamp
        timezone_make_aware user plan stripe_subscription corporate_code w
      = (Raise (date_exn e), w)
  | inr ends_at =>
      varchar_fits 100 (StripeSubscription.id stripe_subscription) = true →
      varchar_fits 100 (StripeSubscription.status stripe_subscription) = true →
      ∃ sub w',
        create_from_stripe_sub timezone_now datetime_fromtimestamp
          timezone_make_aware user plan stripe_subscription corporate_code w
        = (Return sub, w')
        ∧ subscriptions w !! Subscription.id sub = None
        ∧ subscriptions w' = <[Subscription.id sub := sub]> (subscriptions w)
        ∧ sub = Subscription.mk (next_subscription_id w) None user plan
                  (timezone_now (clock_reads w)) (Some ends_at)
                  (Some (StripeSubscription.id stripe_subscription))
                  (StripeSubscription.status stripe_subscription)
                  corporate_code
        ∧ outbox w' = outbox w ++ [{| template_name := "new_subscription";
                                      context_subscription := sub |}]
        ∧ (value_truthy (will_auto_renew sub) = true
           ↔ StripeSubscription.id stripe_subscription ≠ ""
             ∧ StripeSubscription.status stripe_subscription
               ∈ ["active"; "trialing"])
  end.
Proof.
  rewrite create_from_stripe_sub_run.
  destruct (ends_at_for _ _ _) as [e|ends_at]; [done|].
  intros Hid Hstatus.
  rewrite Subscription_objects_create_eq. cbv zeta.
  unfold subscription_fits.
  cbn [Subscription.name Subscription.stripe_id Subscription.stripe_status
       varchar_null_fits].
  rewrite Hid, Hstatus. cbn [andb].
  pose proof (next_key_fresh (subscriptions w)) as Hfresh.
  fold (next_subscription_id w) in Hfresh.
  eexists _, _. split; [reflexivity|]. cbn.
  split; [exact Hfresh|]. split; [reflexivity|].
  split; [reflexivity|]. split; [reflexivity|].
  rewrite will_auto_renew_truthy. cbn.
  destruct (String.eqb_spec (StripeSubscription.id stripe_subscription) "")
    as [Hempty|Hfull]; cbn [negb].
  - split; intros [H _]; [discriminate|contradiction].
  - split; intros [_ H]; by split.
Qed.

Lemma create_from_stripe_sub_inserts_witness :
  ∃ sub w',
    create_from_stripe_sub Sample.clock Sample.fromtimestamp Sample.make_aware
      70 (Some Sample.plan3) Sample.stripe_sub None Sample.world
    = (Return sub, w')
    ∧ Subscription.id sub = 9%nat
    ∧ Subscription.ends_at sub = Some 260200
    ∧ subscriptions w' !! 9%nat = Some sub.
Proof.
  pose proof (create_from_stripe_sub_inserts Sample.clock Sample.fromtimestamp
                Sample.make_aware 70 (Some Sample.plan3) Sample.stripe_sub
                None Sample.world) as H.
  change (ends_at_for Sample.fromtimestamp Sample.make_aware
            (StripeSubscription.current_period_end Sample.stripe_sub))
    with (@inr DateError Z 260200) in H.
  cbv beta iota in H.
  destruct (H eq_refl eq_refl) as (sub & w' & Hrun & _ & Hrows & Hsub & _).
  exists sub, w'. split; [exact Hrun|].
  split; [by rewrite Hsub|]. split; [by rewrite Hsub|].
  rewrite Hrows. replace (Subscription.id sub) with 9%nat by by rewrite Hsub.
  apply lookup_insert_eq.
Defined.

(** ** Plans and the provider *)

Lemma with_uuid_draws_draw n w :
  with_uuid_draws n (draw_uuid w) = with_uuid_draws (S n) w.
Proof.
  unfold with_uuid_draws, draw_uuid. cbn. f_equal. lia.
Qed.

Lemma with_uuid_draws_0 w : with_uuid_draws 0 w = w.
Proof. unfold with_uuid_draws. rewrite Nat.add_0_r. by destruct w. Qed.

(** What the loop of [_generate_stripe_id] returns, it found unused, and
    it only draws identifiers. *)
Lemma generate_stripe_id_loop_unused slugify shortuuid_uuid fuel name :
  ∀ stripe_id w r w',
    generate_stripe_id_loop slugify shortuuid_uuid fuel name stripe_id w
    = (Return r, w') →
    stripe_id_in_use r w = false ∧ ∃ n, w' = with_uuid_draws n w.
Proof.
  induction fuel as [|fuel IH]; intros c w r w';
    cbn [generate_stripe_id_loop]; unfold bind at 1, gets at 1;
    destruct (stripe_id_in_use c w) eqn:Huse.
  - discriminate.
  - intros [= <- <-]. split; [done|]. exists 0%nat. by rewrite with_uuid_draws_0.
  - unfold bind at 1, uuid at 1. intros Hloop.
    apply IH in Hloop as [Hfree [n ->]]. split; [exact Hfree|].
    exists (S n). apply with_uuid_draws_draw.
  - intros [= <- <-]. split; [done|]. exists 0%nat. by rewrite with_uuid_draws_0.
Qed.

(** The loop returns the first unused candidate within its fuel. *)
Lemma generate_stripe_id_loop_first_free slugify shortuuid_uuid name :
  ∀ k fuel stripe_id w,
    (k ≤ fuel)%nat →
    let candidate j :=
      match j with
      | O => stripe_id
      | S i => (slugify name ++ "-"
                ++ substring 0 6 (shortuuid_uuid (uuid_draws w + i)%nat))%string
      end in
    (∀ j, (j < k)%nat → stripe_id_in_use (candidate j) w = true) →
    stripe_id_in_use (candidate k) w = false →
    generate_stripe_id_loop slugify shortuuid_uuid fuel name stripe_id w
    = (Return (candidate k), with_uuid_draws k w).
Proof.
  induction k as [|k IH]; intros fuel c w Hk; cbv zeta; intros Hused Hfree.
  - destruct fuel; cbn [generate_stripe_id_loop]; unfold bind, gets;
      rewrite Hfree; unfold ret; by rewrite with_uuid_draws_0.
  - destruct fuel as [|fuel]; [lia|].
    cbn [generate_stripe_id_loop]. unfold bind at 1, gets at 1.
    pose proof (Hused 0%nat ltac:(lia)) as H0. cbv beta iota in H0.
    rewrite H0. unfold bind at 1, uuid at 1.
    rewrite (IH fuel _ (draw_uuid w)); [| lia | |].
    + rewrite with_uuid_draws_draw. f_equal. f_equal.
      destruct k; cbn [uuid_draws draw_uuid].
      * by rewrite Nat.add_0_r.
      * do 4 f_equal. lia.
    + intros j Hj. specialize (Hused (S j) ltac:(lia)).
      destruct j; cbn [uuid_draws draw_uuid].
      * by rewrite Nat.add_0_r in Hused.
      * replace (S (uuid_draws w) + j)%nat
          with (uuid_draws w + S j)%nat by lia. exact Hused.
    + destruct k; cbn [uuid_draws draw_uuid].
      * by rewrite Nat.add_0_r in Hfree.
      * replace (S (uuid_draws w) + k)%nat
          with (uuid_draws w + S k)%nat by lia. exact Hfree.
Qed.

Lemma generate_stripe_id_at (slugify : string → string)
    (shortuuid_uuid : nat → string) (fuel k : nat) (self : Plan.t)
    (force : bool) (w : World) :
  force || negb (truthy (Plan.stripe_id self)) = true →
  (k ≤ fuel)%nat →
  (∀ j, (j < k)%nat →
     stripe_id_in_use
       (stripe_id_candidate slugify shortuuid_uuid (Plan.name self)
          (uuid_draws w) j) w = true) →
  stripe_id_in_use
    (stripe_id_candidate slugify shortuuid_uuid (Plan.name self)
       (uuid_draws w) k) w = false →
  _generate_stripe_id slugify shortuuid_uuid fuel self force w
  = (Return (Some (stripe_id_candidate slugify shortuuid_uuid (Plan.name self)
                     (uuid_draws w) k)),
     with_uuid_draws (S k) w).
Proof.
  intros Hgen Hk Hused Hfree. unfold _generate_stripe_id. rewrite Hgen.
  unfold bind at 1, uuid at 1. unfold bind at 1.
  rewrite (generate_stripe_id_loop_first_free slugify shortuuid_uuid
             (Plan.name self) k fuel _ (draw_uuid w) Hk).
  - unfold ret. rewrite with_uuid_draws_draw. do 3 f_equal.
    destruct k; [reflexivity|]. cbn [stripe_id_candidate uuid_draws draw_uuid].
    do 4 f_equal. lia.
  - intros j Hj. specialize (Hused j Hj).
    destruct j; [exact Hused|]. cbn [stripe_id_candidate] in Hused.
    cbn [uuid_draws draw_uuid].
    replace (S (uuid_draws w) + j)%nat with (uuid_draws w + S j)%nat by lia.
    exact Hused.
  - destruct k; [exact Hfree|]. cbn [stripe_id_candidate] in Hfree.
    cbn [uuid_draws draw_uuid].
    replace (S (uuid_draws w) + k)%nat with (uuid_draws w + S k)%nat by lia.
    exact Hfree.
Qed.

(** X13: when [_generate_stripe_id] has to generate (no [stripe_id] yet,
    or [force]) and the [k]-th candidate is the first one no stored plan
    uses, with [k] within the fuel, it returns that candidate after
    [k + 1] draws and changes nothing else. The first candidate is
    [slugify(name) + uuid[:6]]; only the later ones carry a dash. *)
Theorem generate_stripe_id_first_free (slugify : string → string)
    (shortuuid_uuid : nat → string) (fuel k : nat) (self : Plan.t)
    (force : bool) (w : World) :
  force || negb (truthy (Plan.stripe_id self)) = true →
  (k ≤ fuel)%nat →
  (∀ j, (j < k)%nat →
     stripe_id_in_use
       (stripe_id_candidate slugify shortuuid_uuid (Plan.name self)
          (uuid_draws w) j) w = true) →
  stripe_id_in_use
    (stripe_id_candidate slugify shortuuid_uuid (Plan.name self)
       (uuid_draws w) k) w = false →
  _generate_stripe_id slugify shortuuid_uuid fuel self force w
  = (Return (Some (stripe_id_candidate slugify shortuuid_uuid (Plan.name self)
                     (uuid_draws w) k)),
     with_uuid_draws (S k) w).
Proof. apply generate_stripe_id_at. Qed.

Lemma generate_stripe_id_first_free_witness :
  _generate_stripe_id Fixture.slug Fixture.uuids 5 Fixture.new_plan false
    Fixture.world
  = (Return (Some "five-boxes-H3FJ8N"), with_uuid_draws 2 Fixture.world).
Proof.
  apply (generate_stripe_id_first_free Fixture.slug Fixture.uuids 5 1
           Fixture.new_plan false Fixture.world); [reflexivity|lia| |reflexivity].
  intros j Hj. replace j with 0%nat by lia. reflexivity.
Defined.

Lemma generate_stripe_id_loop_draws slugify shortuuid_uuid fuel name :
  ∀ stripe_id w,
    ∃ n, snd (generate_stripe_id_loop slugify shortuuid_uuid fuel name
                stripe_id w) = with_uuid_draws n w.
Proof.
  induction fuel as [|fuel IH]; intros c w;
    cbn [generate_stripe_id_loop]; unfold bind at 1, gets at 1;
    destruct (stripe_id_in_use c w).
  - exists 0%nat. by rewrite with_uuid_draws_0.
  - exists 0%nat. by rewrite with_uuid_draws_0.
  - unfold bind at 1, uuid at 1.
    destruct (IH (slugify name ++ "-"
                  ++ substring 0 6 (shortuuid_uuid (uuid_draws w)))%string
                 (draw_uuid w)) as [n ->].
    exists (S n). apply with_uuid_draws_draw.
  - exists 0%nat. by rewrite with_uuid_draws_0.
Qed.

Lemma generate_stripe_id_draws slugify shortuuid_uuid fuel self force w :
  ∃ n, snd (_generate_stripe_id slugify shortuuid_uuid fuel self force w)
       = with_uuid_draws n w.
Proof.
  unfold _generate_stripe_id.
  destruct (force || negb (truthy (Plan.stripe_id self))).
  - unfold bind at 1, uuid at 1. unfold bind at 1.
    destruct (generate_stripe_id_loop_draws slugify shortuuid_uuid fuel
                (Plan.name self)
                (slugify (Plan.name self)
                 ++ substring 0 6 (shortuuid_uuid (uuid_draws w)))%string
                (draw_uuid w)) as [n Hn].
    exists (S n). rewrite <- with_uuid_draws_draw, <- Hn.
    by destruct (generate_stripe_id_loop _ _ _ _ _ _) as [[?|?|] ?].
  - exists 0%nat. by rewrite with_uuid_draws_0.
Qed.

(** X14: whatever [_generate_stripe_id] returns is an identifier no
    stored plan uses; the call touches nothing but the supply of drawn
    identifiers; and for a plan that has a [stripe_id], without [force],
    it returns [None] without drawing. *)
Theorem generated_stripe_id_unused (slugify : string → string)
    (shortuuid_uuid : nat → string) (fuel : nat) (self : Plan.t)
    (force : bool) (w : World) :
  (∃ n, snd (_generate_stripe_id slugify shortuuid_uuid fuel self force w)
        = with_uuid_draws n w)
  ∧ (∀ stripe_id,
       fst (_generate_stripe_id slugify shortuuid_uuid fuel self force w)
       = Return (Some stripe_id) →
       stripe_id_in_use stripe_id w = false)
  ∧ (force = false → truthy (Plan.stripe_id self) = true →
     _generate_stripe_id slugify shortuuid_uuid fuel self force w
     = (Return None, w)).
Proof.
  split; [apply generate_stripe_id_draws|]. split.
  - intros sid. unfold _generate_stripe_id.
    destruct (force || negb (truthy (Plan.stripe_id self))); [|discriminate].
    unfold bind at 1, uuid at 1. unfold bind at 1.
    destruct (generate_stripe_id_loop _ _ _ _ _ _) as [[r| |] w'] eqn:Hloop;
      cbn; [|discriminate..].
    intros [= <-].
    by apply generate_stripe_id_loop_unused in Hloop as [Hfree _].
  - intros -> Hid. unfold _generate_stripe_id. by rewrite Hid.
Qed.

Lemma Model_save_Plan_eq (self : Plan.t) (w : World) :
  Model_save_Plan (self, w)
  = (let pk := match Plan.id self with
               | Some pk => pk
               | None => next_plan_id w
               end in
     let self' := match Plan.id self with
                  | Some _ => self
                  | None => Plan.set_id self (Some pk)
                  end in
     if plan_write_overflows pk self' w
     then (Raise DataError, (self, w))
     else if plan_write_violation pk self' w
     then (Raise IntegrityError, (self, w))
     else (Return tt,
           (self', store_plan pk (Plan.set_loaded_values self' None) w))).
Proof.
  unfold Model_save_Plan, bind, gets, modify, raise. cbn [fst snd].
  destruct (Plan.id self) as [pk|]; cbv zeta; cbn [fst snd];
    destruct (plan_write_overflows _ _ w); try done;
    by destruct (plan_write_violation _ _ w).
Qed.

(** *** The constraints of the plan table *)

Lemma other_plan_false pk (p q : Plan.t → Prop)
    `{!∀ r, Decision (p r)} `{!∀ r, Decision (q r)} (w : World) :
  (∀ r, p r → q r) →
  bool_decide (Exists (λ kv, q kv.2) (map_to_list (plans w))) = false →
  other_plan pk p w = false.
Proof.
  intros Hpq Hq. unfold other_plan.
  apply bool_decide_eq_false in Hq. apply bool_decide_eq_false.
  intros Hp. apply Hq. eapply Exists_impl; [exact Hp|].
  intros kv [_ Hkv]. by apply Hpq.
Qed.

Lemma writes_column_unchanged {A} `{!EqDecision A} pk (col : Plan.t → A)
    old new w :
  plans w !! pk = Some old → col old = col new →
  writes_column pk col new w = false.
Proof.
  intros Hold Hcol. unfold writes_column. rewrite Hold.
  by apply bool_decide_eq_false_2; intros ?.
Qed.

(** A write that leaves the constrained columns as stored is accepted. *)
Lemma plan_write_unchanged pk old new w :
  plans w !! pk = Some old →
  Plan.name old = Plan.name new →
  Plan.stripe_id old = Plan.stripe_id new →
  Plan.amount old = Plan.amount new →
  Plan.number_of_boxes old = Plan.number_of_boxes new →
  plan_write_violation pk new w = false.
Proof.
  intros Hold Hname Hsid Hamount Hboxes. unfold plan_write_violation.
  by rewrite !(writes_column_unchanged pk _ old new w).
Qed.

(** A write that changes only the name, to one no other plan has, is
    accepted. *)
Lemma plan_write_renamed pk old new w :
  plans w !! pk = Some old →
  other_plan pk (λ r, Plan.name r = Plan.name new) w = false →
  Plan.stripe_id old = Plan.stripe_id new →
  Plan.amount old = Plan.amount new →
  Plan.number_of_boxes old = Plan.number_of_boxes new →
  plan_write_violation pk new w = false.
Proof.
  intros Hold Hname Hsid Hamount Hboxes. unfold plan_write_violation.
  rewrite Hname, andb_false_r.
  by rewrite !(writes_column_unchanged pk _ old new w).
Qed.

(** A row with an unused name, an unused or null identifier and
    non-negative numbers is accepted under any key. *)
Lemma plan_write_fresh pk new w :
  plan_name_in_use (Plan.name new) w = false →
  (∀ stripe_id, Plan.stripe_id new = Some stripe_id →
     stripe_id_in_use stripe_id w = false) →
  0 ≤ Plan.amount new →
  0 ≤ Plan.number_of_boxes new →
  plan_write_violation pk new w = false.
Proof.
  intros Hname Hsid Hamount Hboxes. unfold plan_write_violation.
  rewrite (other_plan_false pk _ (λ r, Plan.name r = Plan.name new) w);
    [|done|exact Hname].
  rewrite andb_false_r, orb_false_l.
  replace (Plan.amount new <? 0) with false by (symmetry; apply Z.ltb_ge; lia).
  replace (Plan.number_of_boxes new <? 0) with false
    by (symmetry; apply Z.ltb_ge; lia).
  rewrite !andb_false_r, !orb_false_r.
  destruct (Plan.stripe_id new) as [sid|] eqn:Hnew.
  - rewrite (other_plan_false pk _ (λ r, Plan.stripe_id r = Some sid) w);
      [by rewrite andb_false_r|done|]. by apply Hsid.
  - rewrite (bool_decide_eq_false_2 (None ≠ None)) by (intros H; by apply H).
    by rewrite andb_false_r.
Qed.

(** *** The columns of the plan table *)

Lemma plan_overflows_unchanged pk old new w :
  plans w !! pk = Some old →
  Plan.name old = Plan.name new →
  Plan.stripe_id old = Plan.stripe_id new →
  Plan.amount old = Plan.amount new →
  Plan.number_of_boxes old = Plan.number_of_boxes new →
  plan_write_overflows pk new w = false.
Proof.
  intros Hold Hname Hsid Hamount Hboxes. unfold plan_write_overflows.
  by rewrite !(writes_column_unchanged pk _ old new w).
Qed.

Lemma plan_overflows_renamed pk old new w :
  plans w !! pk = Some old →
  varchar_fits 255 (Plan.name new) = true →
  Plan.stripe_id old = Plan.stripe_id new →
  Plan.amount old = Plan.amount new →
  Plan.number_of_boxes old = Plan.number_of_boxes new →
  plan_write_overflows pk new w = false.
Proof.
  intros Hold Hname Hsid Hamount Hboxes. unfold plan_write_overflows.
  rewrite Hname. cbn [negb]. rewrite andb_false_r.
  by rewrite !(writes_column_unchanged pk _ old new w).
Qed.

Lemma plan_overflows_fits pk new w :
  varchar_fits 255 (Plan.name new) = true →
  varchar_null_fits 255 (Plan.stripe_id new) = true →
  integer_fits (Plan.amount new) = true →
  integer_fits (Plan.number_of_boxes new) = true →
  plan_write_overflows pk new w = false.
Proof.
  intros Hname Hsid Hamount Hboxes. unfold plan_write_overflows.
  rewrite Hname, Hsid, Hamount, Hboxes. cbn [negb].
  by rewrite !andb_false_r.
Qed.

(** A refused write leaves instance and world as they were. *)
Lemma Model_save_Plan_refused (self : Plan.t) (w : World) :
  fst (Model_save_Plan (self, w)) ≠ Return tt →
  snd (Model_save_Plan (self, w)) = (self, w).
Proof.
  rewrite Model_save_Plan_eq. cbv zeta.
  destruct (plan_write_overflows _ _ w); cbn [fst snd]; [done|].
  destruct (plan_write_violation _ _ w); cbn [fst snd]; [done|].
  intros H. by destruct H.
Qed.

(** [save] on a plan without a [stripe_id], step by step. *)
Lemma Plan_save_new_eq stripe_api slugify shortuuid_uuid fuel self w :
  truthy (Plan.stripe_id self) = false →
  Plan_save stripe_api slugify shortuuid_uuid fuel (self, w)
  = match _generate_stripe_id slugify shortuuid_uuid fuel self false w with
    | (Return stripe_id, w1) =>
        let self1 := Plan.set_stripe_id self stripe_id in
        let req := PlanCreate (Plan.name self) stripe_id "year" "usd"
                     (Plan.amount self) in
        match stripe_api (stripe_log w1) req with
        | None => Model_save_Plan (self1, log_stripe req w1)
        | Some msg => (Raise (StripeError msg), (self1, log_stripe req w1))
        end
    | (Raise e, w1) => (Raise e, (self, w1))
    | (Diverge, w1) => (Diverge, (self, w1))
    end.
Proof.
  intros Hid. unfold Plan_save, bind at 1, gets at 1. cbn [fst]. rewrite Hid.
  unfold bind at 1, in_world at 1. cbn [fst snd].
  destruct (_generate_stripe_id slugify shortuuid_uuid fuel self false w)
    as [[sid|e|] w1]; [|done..].
  unfold bind at 1, modify at 1. cbn [fst snd].
  unfold bind at 1, in_world at 1, stripe_call. cbn [fst snd].
  by destruct (stripe_api _ _).
Qed.

(** [save] on a plan with a [stripe_id] whose amount is as loaded. *)
Lemma Plan_save_kept_eq stripe_api slugify shortuuid_uuid fuel self w :
  truthy (Plan.stripe_id self) = true →
  is_changed self "amount" = Return false →
  Plan_save stripe_api slugify shortuuid_uuid fuel (self, w)
  = match is_changed self "name" with
    | Return true =>
        let retrieve := PlanRetrieve (Plan.stripe_id self) in
        let save := PlanSave (Plan.stripe_id self) (Plan.name self) in
        match stripe_api (stripe_log w) retrieve with
        | Some msg => (Raise (StripeError msg), (self, log_stripe retrieve w))
        | None =>
            match stripe_api (stripe_log w ++ [retrieve]) save with
            | Some msg =>
                (Raise (StripeError msg),
                 (self, log_stripe save (log_stripe retrieve w)))
            | None =>
                Model_save_Plan (self, log_stripe save (log_stripe retrieve w))
            end
        end
    | Return false => Model_save_Plan (self, w)
    | Raise e => (Raise e, (self, w))
    | Diverge => (Diverge, (self, w))
    end.
Proof.
  intros Hid Hamount.
  unfold Plan_save, bind at 1, gets at 1. cbn [fst]. rewrite Hid.
  unfold bind at 1, lift at 1. rewrite Hamount.
  unfold bind at 1, lift at 1.
  destruct (is_changed self "name") as [[|]|e|]; [| |done..].
  - unfold bind at 1 2, in_world, stripe_call. cbn [fst snd].
    destruct (stripe_api (stripe_log w) _);
      cbn [fst snd stripe_log log_stripe]; [reflexivity|].
    destruct (stripe_api (stripe_log w ++ _) _); reflexivity.
  - reflexivity.
Qed.

(** X15: [Plan.save] writes to the database last: whenever it does not
    return normally (an exception of its own, a provider error, a failed
    lookup, a write the database refuses, or no free identifier within
    the fuel) every table is as it was before the call. *)
Theorem Plan_save_writes_last
    (stripe_api : list StripeRequest → StripeRequest → option string)
    (slugify : string → string) (shortuuid_uuid : nat → string) (fuel : nat)
    (self : Plan.t) (w : World) :
  fst (Plan_save stripe_api slugify shortuuid_uuid fuel (self, w)) ≠ Return tt →
  same_tables w (snd (Plan_save stripe_api slugify shortuuid_uuid fuel (self, w))).2.
Proof.
  unfold same_tables.
  destruct (truthy (Plan.stripe_id self)) eqn:Hid.
  - destruct (is_changed self "amount") as [[|]|e|] eqn:Hamount.
    + intros _. unfold Plan_save, bind, gets, lift, raise. cbn [fst].
      rewrite Hid, Hamount. by repeat split.
    + rewrite Plan_save_kept_eq by done.
      destruct (is_changed self "name") as [[|]|e|]; cbv zeta;
        repeat case_match; intros Hne;
        rewrite ?(Model_save_Plan_refused _ _ Hne);
        cbn [fst snd] in *; by repeat split.
    + intros _. unfold Plan_save, bind, gets, lift, raise. cbn [fst].
      rewrite Hid, Hamount. by repeat split.
    + intros _. unfold Plan_save, bind, gets, lift, raise. cbn [fst].
      rewrite Hid, Hamount. by repeat split.
  - rewrite Plan_save_new_eq by done.
    destruct (generate_stripe_id_draws slugify shortuuid_uuid fuel self false w)
      as [n Hn].
    destruct (_generate_stripe_id slugify shortuuid_uuid fuel self false w)
      as [[sid|e|] w1]; cbn [snd] in Hn; subst w1; cbv zeta;
      repeat case_match; intros Hne;
      rewrite ?(Model_save_Plan_refused _ _ Hne);
      cbn [fst snd] in *; by repeat split.
Qed.

Lemma Plan_save_writes_last_witness :
  fst (Plan_save Fixture.stripe_down Fixture.slug Fixture.uuids 5
         (Fixture.new_plan, Fixture.world))
  = Raise (StripeError "api_connection_error")
  ∧ plans (snd (Plan_save Fixture.stripe_down Fixture.slug Fixture.uuids 5
                  (Fixture.new_plan, Fixture.world))).2
    = plans Fixture.world.
Proof.
  split; [reflexivity|].
  apply (Plan_save_writes_last Fixture.stripe_down Fixture.slug Fixture.uuids
           5 Fixture.new_plan Fixture.world). discriminate.
Defined.

(** The write of a new plan under the generated identifier is accepted
    when name and identifier are unused and fit their columns, and the
    numbers are within the range of the integer columns and not negative. *)
Lemma new_plan_accepted (self : Plan.t) (stripe_id : string) pk w w1 :
  plans w1 = plans w →
  plan_name_in_use (Plan.name self) w = false →
  stripe_id_in_use stripe_id w = false →
  varchar_fits 255 (Plan.name self) = true →
  varchar_fits 255 stripe_id = true →
  0 ≤ Plan.amount self ≤ integer_max →
  0 ≤ Plan.number_of_boxes self ≤ integer_max →
  let new := Plan.set_id (Plan.set_stripe_id self (Some stripe_id)) (Some pk) in
  plan_write_overflows pk new w1 = false
  ∧ plan_write_violation pk new w1 = false.
Proof.
  intros Hw1 Hname Hfree Hlen Hsid [Hamount Hamax] [Hboxes Hbmax]. cbv zeta.
  split.
  - apply plan_overflows_fits; cbn [Plan.name Plan.stripe_id Plan.amount
      Plan.number_of_boxes Plan.set_id Plan.set_stripe_id varchar_null_fits];
      try done; by apply integer_fits_range.
  - apply plan_write_fresh; cbn [Plan.name Plan.stripe_id Plan.amount
      Plan.number_of_boxes Plan.set_id Plan.set_stripe_id].
    + unfold plan_name_in_use in *. by rewrite Hw1.
    + intros sid [= <-]. unfold stripe_id_in_use in *. by rewrite Hw1.
    + done.
    + done.
Qed.

(** X16: saving a new plan (no [stripe_id], no primary key) that the
    plan table accepts (a name no stored plan has, name and identifier of
    at most 255 characters, amount and number of boxes from 0 to
    2147483647) and whose first candidate identifier is unused, with the
    provider accepting the creation: the provider is asked once, for a
    yearly plan in usd at the plan's amount, and the plan is stored under
    a primary key that was free, carrying the generated identifier. *)
Theorem Plan_save_creates
    (stripe_api : list StripeRequest → StripeRequest → option string)
    (slugify : string → string) (shortuuid_uuid : nat → string) (fuel : nat)
    (self : Plan.t) (w : World) :
  truthy (Plan.stripe_id self) = false →
  Plan.id self = None →
  plan_name_in_use (Plan.name self) w = false →
  varchar_fits 255 (Plan.name self) = true →
  0 ≤ Plan.amount self ≤ integer_max →
  0 ≤ Plan.number_of_boxes self ≤ integer_max →
  let stripe_id :=
    stripe_id_candidate slugify shortuuid_uuid (Plan.name self)
      (uuid_draws w) 0 in
  let req := PlanCreate (Plan.name self) (Some stripe_id) "year" "usd"
               (Plan.amount self) in
  let saved := Plan.set_id (Plan.set_stripe_id self (Some stripe_id))
                 (Some (next_plan_id w)) in
  varchar_fits 255 stripe_id = true →
  stripe_id_in_use stripe_id w = false →
  stripe_api (stripe_log w) req = None →
  ∃ w', Plan_save stripe_api slugify shortuuid_uuid fuel (self, w)
        = (Return tt, (saved, w'))
        ∧ plans w !! next_plan_id w = None
        ∧ plans w' = <[next_plan_id w := Plan.set_loaded_values saved None]>
                       (plans w)
        ∧ stripe_log w' = stripe_log w ++ [req].
Proof.
  intros Hid Hpk Hname Hlen Hamount Hboxes. cbv zeta. intros Hsid Hfree Hok.
  rewrite Plan_save_new_eq by done.
  rewrite (generate_stripe_id_at slugify shortuuid_uuid fuel 0 self false w);
    [|by rewrite Hid|lia|intros j Hj; lia|exact Hfree].
  cbv zeta. cbn [stripe_log with_uuid_draws]. rewrite Hok.
  rewrite Model_save_Plan_eq. cbn [Plan.id Plan.set_stripe_id]. rewrite Hpk.
  cbv zeta.
  change (next_plan_id (log_stripe _ (with_uuid_draws 1 w)))
    with (next_plan_id w).
  destruct (new_plan_accepted self _ (next_plan_id w) w
              (log_stripe
                 (PlanCreate (Plan.name self)
                    (Some (stripe_id_candidate slugify shortuuid_uuid
                             (Plan.name self) (uuid_draws w) 0))
                    "year" "usd" (Plan.amount self))
                 (with_uuid_draws 1 w))
              eq_refl Hname Hfree Hlen Hsid Hamount Hboxes) as [-> ->].
  eexists. split; [reflexivity|].
  split; [apply next_key_fresh|]. split; reflexivity.
Qed.

Lemma Plan_save_creates_witness :
  ∃ w', Plan_save Sample.stripe_ok Sample.slugify Sample.shortuuid_uuid 0
          (Fixture.new_plan, Sample.world)
        = (Return tt,
           (Plan.mk (Some 2%nat) "Five boxes" true 3500 5
              (Some "Five boxesQ7XK2M") None, w'))
        ∧ plans Sample.world !! 2%nat = None
        ∧ plans w'
          = <[2%nat := Plan.mk (Some 2%nat) "Five boxes" true 3500 5
                         (Some "Five boxesQ7XK2M") None]> (plans Sample.world)
        ∧ stripe_log w'
          = [PlanCreate "Five boxes" (Some "Five boxesQ7XK2M") "year" "usd" 3500].
Proof.
  apply (Plan_save_creates Sample.stripe_ok Sample.slugify
           Sample.shortuuid_uuid 0 Fixture.new_plan Sample.world);
    try reflexivity; cbn; unfold integer_max; lia.
Defined.

(** X17: when the provider rejects the creation of a new plan (one that
    the plan table accepts: a name no stored plan has, name and identifier
    of at most 255 characters, amount and number of boxes from 0 to
    2147483647), [save] raises the provider's error and stores nothing,
    but the generated identifier stays on the instance; saving that
    instance again then stores the plan without asking the provider at
    all. *)
Theorem Plan_save_retry_skips_provider
    (stripe_api retry_api : list StripeRequest → StripeRequest → option string)
    (slugify : string → string) (shortuuid_uuid : nat → string) (fuel : nat)
    (self : Plan.t) (w : World) (msg : string) :
  truthy (Plan.stripe_id self) = false →
  Plan.id self = None →
  Plan._loaded_values self = None →
  plan_name_in_use (Plan.name self) w = false →
  varchar_fits 255 (Plan.name self) = true →
  0 ≤ Plan.amount self ≤ integer_max →
  0 ≤ Plan.number_of_boxes self ≤ integer_max →
  let stripe_id :=
    stripe_id_candidate slugify shortuuid_uuid (Plan.name self)
      (uuid_draws w) 0 in
  let req := PlanCreate (Plan.name self) (Some stripe_id) "year" "usd"
               (Plan.amount self) in
  stripe_id ≠ "" →
  varchar_fits 255 stripe_id = true →
  stripe_id_in_use stripe_id w = false →
  stripe_api (stripe_log w) req = Some msg →
  let first := Plan_save stripe_api slugify shortuuid_uuid fuel (self, w) in
  let second := Plan_save retry_api slugify shortuuid_uuid fuel (snd first) in
  fst first = Raise (StripeError msg)
  ∧ plans (snd first).2 = plans w
  ∧ (snd first).1 = Plan.set_stripe_id self (Some stripe_id)
  ∧ fst second = Return tt
  ∧ stripe_log (snd second).2 = stripe_log (snd first).2
  ∧ plans (snd second).2 !! next_plan_id w
    = Some (Plan.set_id (Plan.set_stripe_id self (Some stripe_id))
              (Some (next_plan_id w))).
Proof.
  intros Hid Hpk Hloaded Hname Hlen Hamount Hboxes. cbv zeta.
  intros Hfull Hsid Hfree Hfail.
  rewrite (Plan_save_new_eq stripe_api) by done.
  rewrite (generate_stripe_id_at slugify shortuuid_uuid fuel 0 self false w);
    [|by rewrite Hid|lia|intros j Hj; lia|exact Hfree].
  cbv zeta. cbn [stripe_log with_uuid_draws]. rewrite Hfail. cbn [fst snd].
  split; [reflexivity|]. split; [reflexivity|]. split; [reflexivity|].
  set (p := Plan.set_stripe_id self _).
  set (w1 := log_stripe _ _).
  assert (Hsame : ∀ f, is_changed p f = Return false).
  { intros f. unfold is_changed, p. cbn [Plan._loaded_values Plan.set_stripe_id].
    by rewrite Hloaded. }
  rewrite Plan_save_kept_eq; [|unfold p|apply Hsame].
  2:{ cbn [Plan.stripe_id Plan.set_stripe_id truthy].
      apply String.eqb_neq in Hfull. by rewrite Hfull. }
  rewrite Hsame, Model_save_Plan_eq.
  change (Plan.id p) with (Plan.id self). rewrite Hpk. cbv zeta.
  change (next_plan_id w1) with (next_plan_id w).
  unfold p.
  destruct (new_plan_accepted self _ (next_plan_id w) w w1
              eq_refl Hname Hfree Hlen Hsid Hamount Hboxes) as [-> ->].
  cbn [fst snd]. split; [reflexivity|]. split; [reflexivity|].
  cbn [plans store_plan]. rewrite lookup_insert_eq. f_equal.
  destruct self; cbn in *; by subst.
Qed.

Lemma Plan_save_retry_skips_provider_witness :
  fst (Plan_save Fixture.stripe_down Sample.slugify Sample.shortuuid_uuid 0
         (Fixture.new_plan, Sample.world))
  = Raise (StripeError "api_connection_error")
  ∧ stripe_log
      (snd (Plan_save Fixture.stripe_down Sample.slugify Sample.shortuuid_uuid 0
              (snd (Plan_save Fixture.stripe_down Sample.slugify
                      Sample.shortuuid_uuid 0
                      (Fixture.new_plan, Sample.world))))).2
    = [PlanCreate "Five boxes" (Some "Five boxesQ7XK2M") "year" "usd" 3500].
Proof.
  destruct (Plan_save_retry_skips_provider Fixture.stripe_down
              Fixture.stripe_down Sample.slugify Sample.shortuuid_uuid 0
              Fixture.new_plan Sample.world "api_connection_error")
    as (Hraise & _ & _ & _ & Hlog & _);
    [reflexivity|reflexivity|reflexivity|reflexivity|reflexivity
    |cbn; unfold integer_max; lia|cbn; unfold integer_max; lia
    |discriminate|reflexivity|reflexivity|reflexivity|].
  split; [exact Hraise|]. rewrite Hlog. reflexivity.
Defined.

(** What [save] can do to the plan table: nothing, or write the one row
    of the instance, under its own key or under a key that was free. *)
Lemma Plan_save_plans stripe_api slugify shortuuid_uuid fuel self w :
  let w' := (snd (Plan_save stripe_api slugify shortuuid_uuid fuel (self, w))).2 in
  plans w' = plans w
  ∨ ∃ pk row,
      plans w' = <[pk := row]> (plans w)
      ∧ Plan.id row = Some pk
      ∧ (Plan.id self = Some pk
         ∨ (Plan.id self = None ∧ plans w !! pk = None)).
Proof.
  cbv zeta.
  assert (Hsave : ∀ p w1, plans w1 = plans w → Plan.id p = Plan.id self →
    plans (snd (Model_save_Plan (p, w1))).2 = plans w
    ∨ ∃ pk row,
        plans (snd (Model_save_Plan (p, w1))).2 = <[pk := row]> (plans w)
        ∧ Plan.id row = Some pk
        ∧ (Plan.id self = Some pk
           ∨ (Plan.id self = None ∧ plans w !! pk = None))).
  { intros p w1 Hw1 Hp. rewrite Model_save_Plan_eq, Hp.
    destruct (Plan.id self) as [pk|] eqn:Hpk; cbv zeta;
      (destruct (plan_write_overflows _ _ w1); [by left|]);
      (destruct (plan_write_violation _ _ w1); [by left|]);
      right; cbn [snd plans store_plan].
    - exists pk, (Plan.set_loaded_values p None). rewrite Hw1.
      split; [done|]. split; [exact Hp|]. by left.
    - exists (next_plan_id w1), (Plan.set_loaded_values
                (Plan.set_id p (Some (next_plan_id w1))) None).
      rewrite Hw1. split; [done|]. split; [done|]. right. split; [done|].
      unfold next_plan_id. rewrite Hw1. apply next_key_fresh. }
  destruct (truthy (Plan.stripe_id self)) eqn:Hid.
  - destruct (is_changed self "amount") as [[|]|e|] eqn:Hamount.
    2:{ rewrite Plan_save_kept_eq by done.
        destruct (is_changed self "name") as [[|]|e|]; cbv zeta;
          repeat case_match; cbn [snd]; try (by left);
          by apply Hsave. }
    all: left; unfold Plan_save, bind, gets, lift, raise; cbn [fst];
      by rewrite Hid, Hamount.
  - rewrite Plan_save_new_eq by done.
    destruct (generate_stripe_id_draws slugify shortuuid_uuid fuel self false w)
      as [n Hn].
    destruct (_generate_stripe_id slugify shortuuid_uuid fuel self false w)
      as [[sid|e|] w1]; cbn [snd] in Hn; subst w1; cbv zeta;
      repeat case_match; cbn [snd]; try (by left); by apply Hsave.
Qed.

(** X18: [Plan.save] never removes a plan row and never touches the row
    of another plan, and it keeps every row filed under its own primary
    key, whatever the outcome of the call. *)
Theorem Plan_save_keeps_rows
    (stripe_api : list StripeRequest → StripeRequest → option string)
    (slugify : string → string) (shortuuid_uuid : nat → string) (fuel : nat)
    (self : Plan.t) (w : World) :
  let w' := (snd (Plan_save stripe_api slugify shortuuid_uuid fuel (self, w))).2 in
  dom (plans w) ⊆ dom (plans w')
  ∧ (∀ k, Plan.id self ≠ Some k → is_Some (plans w !! k) →
       plans w' !! k = plans w !! k)
  ∧ (plans_keyed w → plans_keyed w').
Proof.
  cbv zeta. unfold plans_keyed.
  destruct (Plan_save_plans stripe_api slugify shortuuid_uuid fuel self w)
    as [->|(pk & row & -> & Hrow & Hpk)].
  { split; [set_solver|]. split; [by intros|]. intros H. exact H. }
  split; [|split].
  - rewrite dom_insert_L. apply union_subseteq_r.
  - intros k Hk Hsome. rewrite lookup_insert_ne; [done|].
    intros ->. destruct Hpk as [Hpk|[_ Hnone]]; [done|].
    rewrite Hnone in Hsome. by destruct Hsome.
  - intros Hkeyed k r. rewrite lookup_insert. case_decide as Hk.
    + intros [= <-]. by subst.
    + apply Hkeyed.
Qed.

(** ** Loaded plans *)

(** On an instance that carries the values of a loaded row, [is_changed]
    compares the attribute with the row. *)
Lemma is_changed_after_load (q row : Plan.t) :
  Plan._loaded_values q
  = Some (list_to_map (zip Plan.field_names (Plan_values row))) →
  is_changed q "amount"
  = Return (negb (Z.eqb (Plan.amount row) (Plan.amount q)))
  ∧ is_changed q "name"
    = Return (negb (String.eqb (Plan.name row) (Plan.name q))).
Proof.
  intros Hloaded. unfold is_changed. rewrite Hloaded.
  split; by vm_compute.
Qed.

Lemma from_db_row (row : Plan.t) :
  Plan._loaded_values row = None →
  Plan.set_loaded_values (from_db row Plan.field_names (Plan_values row)) None
  = row.
Proof. intros H. destruct row. cbn in *. by subst. Qed.

Lemma store_plan_same pk row w :
  plans w !! pk = Some row → store_plan pk row w = w.
Proof.
  intros H. unfold store_plan. rewrite insert_id by done. by destruct w.
Qed.

(** X19: loading a stored plan that has a [stripe_id] and saving it
    unchanged is a no-op: [save] returns, asks the provider nothing and
    leaves the world exactly as it was. *)
Theorem Plan_load_save_noop
    (stripe_api : list StripeRequest → StripeRequest → option string)
    (slugify : string → string) (shortuuid_uuid : nat → string) (fuel : nat)
    (pk : nat) (row : Plan.t) (w : World) :
  plans w !! pk = Some row →
  Plan.id row = Some pk →
  Plan._loaded_values row = None →
  truthy (Plan.stripe_id row) = true →
  ∃ p, Plan_get pk w = Some p
     ∧ Plan_save stripe_api slugify shortuuid_uuid fuel (p, w)
       = (Return tt, (p, w)).
Proof.
  intros Hrow Hpk Hnone Hid. unfold Plan_get. rewrite Hrow.
  eexists. split; [reflexivity|].
  set (p := from_db row Plan.field_names (Plan_values row)).
  destruct (is_changed_after_load p row eq_refl) as [Hamount Hname].
  change (Plan.amount p) with (Plan.amount row) in Hamount.
  change (Plan.name p) with (Plan.name row) in Hname.
  rewrite Z.eqb_refl in Hamount. rewrite String.eqb_refl in Hname.
  rewrite Plan_save_kept_eq; [|exact Hid|exact Hamount].
  rewrite Hname, Model_save_Plan_eq.
  change (Plan.id p) with (Plan.id row). rewrite Hpk. cbv zeta.
  rewrite (plan_overflows_unchanged pk row p w) by done.
  rewrite (plan_write_unchanged pk row p w) by done.
  unfold p. rewrite from_db_row by done. by rewrite store_plan_same.
Qed.

Lemma Plan_load_save_noop_witness :
  ∃ p, Plan_get 1 Sample.world = Some p
     ∧ Plan_save Fixture.stripe_down Sample.slugify Sample.shortuuid_uuid 0
         (p, Sample.world)
       = (Return tt, (p, Sample.world)).
Proof.
  apply (Plan_load_save_noop Fixture.stripe_down Sample.slugify
           Sample.shortuuid_uuid 0 1 Sample.plan3 Sample.world); reflexivity.
Defined.

(** X20: saving a loaded plan under a new name of at most 255 characters
    that no other stored plan has, with the provider accepting, asks the
    provider twice, to retrieve the plan and then to save it under the
    new name, and rewrites the plan's row with the new name. *)
Theorem Plan_save_renames
    (stripe_api : list StripeRequest → StripeRequest → option string)
    (slugify : string → string) (shortuuid_uuid : nat → string) (fuel : nat)
    (pk : nat) (row : Plan.t) (new_name : string) (w : World) :
  plans w !! pk = Some row →
  Plan.id row = Some pk →
  Plan._loaded_values row = None →
  truthy (Plan.stripe_id row) = true →
  new_name ≠ Plan.name row →
  varchar_fits 255 new_name = true →
  other_plan pk (λ r, Plan.name r = new_name) w = false →
  let p := Plan_set_name (from_db row Plan.field_names (Plan_values row))
             new_name in
  let retrieve := PlanRetrieve (Plan.stripe_id row) in
  let save := PlanSave (Plan.stripe_id row) new_name in
  stripe_api (stripe_log w) retrieve = None →
  stripe_api (stripe_log w ++ [retrieve]) save = None →
  ∃ w', Plan_save stripe_api slugify shortuuid_uuid fuel (p, w)
        = (Return tt, (p, w'))
        ∧ stripe_log w' = stripe_log w ++ [retrieve; save]
        ∧ plans w' = <[pk := Plan_set_name row new_name]> (plans w).
Proof.
  intros Hrow Hpk Hnone Hid Hnew Hlen Hunique. cbv zeta.
  intros Hretrieve Hsave.
  set (p := Plan_set_name _ new_name).
  destruct (is_changed_after_load p row eq_refl) as [Hamount Hname].
  change (Plan.amount p) with (Plan.amount row) in Hamount.
  change (Plan.name p) with new_name in Hname.
  rewrite Z.eqb_refl in Hamount.
  assert (Hne : String.eqb (Plan.name row) new_name = false)
    by (apply String.eqb_neq; congruence).
  rewrite Hne in Hname.
  rewrite Plan_save_kept_eq; [|exact Hid|exact Hamount].
  rewrite Hname. cbv zeta.
  change (Plan.stripe_id p) with (Plan.stripe_id row).
  change (Plan.name p) with new_name.
  rewrite Hretrieve, Hsave, Model_save_Plan_eq.
  change (Plan.id p) with (Plan.id row). rewrite Hpk. cbv zeta.
  rewrite (plan_overflows_renamed pk row p) by done.
  rewrite (plan_write_renamed pk row p) by done.
  eexists. split; [reflexivity|]. cbn [stripe_log plans store_plan log_stripe].
  split; [by rewrite <- app_assoc|]. f_equal.
  unfold p. destruct row. cbn in *. by subst.
Qed.

Lemma Plan_save_renames_witness :
  ∃ w', fst (Plan_save Sample.stripe_ok Sample.slugify Sample.shortuuid_uuid 0
               (Plan_set_name
                  (from_db Sample.plan3 Plan.field_names
                     (Plan_values Sample.plan3)) "Trio", Sample.world))
        = Return tt
        ∧ stripe_log w'
          = [PlanRetrieve (Some "three-boxes7GH2KQ");
             PlanSave (Some "three-boxes7GH2KQ") "Trio"]
        ∧ plans w' !! 1%nat = Some (Plan_set_name Sample.plan3 "Trio").
Proof.
  destruct (Plan_save_renames Sample.stripe_ok Sample.slugify
              Sample.shortuuid_uuid 0 1 Sample.plan3 "Trio" Sample.world)
    as (w' & Hrun & Hlog & Hplans);
    [reflexivity|reflexivity|reflexivity|reflexivity|discriminate
    |reflexivity|reflexivity|reflexivity|reflexivity|].
  exists w'. split; [by rewrite Hrun|]. split; [exact Hlog|].
  rewrite Hplans. apply lookup_insert_eq.
Defined.

(** ** The plan queryset and deletion *)

#[global] Instance plan_ordering_trans : Transitive plan_ordering.
Proof. unfold plan_ordering. intros a b c. lia. Qed.

#[global] Instance plan_ordering_total : Total plan_ordering.
Proof. unfold plan_ordering. intros a b. lia. Qed.

Lemma PlanQuerySet_available_elem (w : World) (q : Plan.t) :
  q ∈ PlanQuerySet_available w
  ↔ ∃ pk row, plans w !! pk = Some row
              ∧ Plan.available row = true
              ∧ Plan.stripe_id row ≠ None
              ∧ q = from_db row Plan.field_names (Plan_values row).
Proof.
  unfold PlanQuerySet_available. rewrite merge_sort_Permutation.
  rewrite list_elem_of_fmap. split.
  - intros (row & -> & Hrow). apply list_elem_of_filter in Hrow as [[Hav Hid] Hin].
    apply list_elem_of_fmap in Hin as ([pk row'] & -> & Hin).
    apply elem_of_map_to_list in Hin. by exists pk, row'.
  - intros (pk & row & Hrow & Hav & Hid & ->). exists row. split; [done|].
    apply list_elem_of_filter. split; [done|].
    apply list_elem_of_fmap. exists (pk, row). split; [done|].
    by apply elem_of_map_to_list.
Qed.

(** X21: [Plan.objects.available()] yields exactly the stored plans that
    are available and have a non-null [stripe_id], each as loaded from
    its row, in non-decreasing order of amount and, at equal amounts, of
    number of boxes. *)
Theorem PlanQuerySet_available_spec (w : World) :
  (∀ q, q ∈ PlanQuerySet_available w
        ↔ ∃ pk row, plans w !! pk = Some row
                    ∧ Plan.available row = true
                    ∧ Plan.stripe_id row ≠ None
                    ∧ q = from_db row Plan.field_names (Plan_values row))
  ∧ StronglySorted plan_ordering (PlanQuerySet_available w).
Proof.
  split; [apply PlanQuerySet_available_elem|].
  apply StronglySorted_merge_sort; apply _.
Qed.

(** X22: [Plan.delete] is a soft delete. On a loaded plan with a
    [stripe_id] it keeps the row, marked unavailable, asks the provider
    nothing and removes no key; afterwards the plan is no longer among the
    available plans. *)
Theorem Plan_delete_is_soft
    (stripe_api : list StripeRequest → StripeRequest → option string)
    (slugify : string → string) (shortuuid_uuid : nat → string) (fuel : nat)
    (pk : nat) (row : Plan.t) (w : World) :
  plans_keyed w →
  plans w !! pk = Some row →
  Plan._loaded_values row = None →
  truthy (Plan.stripe_id row) = true →
  let p := from_db row Plan.field_names (Plan_values row) in
  ∃ w', Plan_delete stripe_api slugify shortuuid_uuid fuel (p, w)
        = (Return tt, (Plan_set_available p false, w'))
        ∧ plans w' = <[pk := Plan_set_available row false]> (plans w)
        ∧ stripe_log w' = stripe_log w
        ∧ dom (plans w') = dom (plans w)
        ∧ ∀ q, q ∈ PlanQuerySet_available w' → Plan.id q ≠ Some pk.
Proof.
  intros Hkeyed Hrow Hnone Hid. cbv zeta.
  pose proof (Hkeyed pk row Hrow) as Hpk.
  unfold Plan_delete, bind at 1, modify at 1. cbn [fst snd].
  set (p := Plan_set_available _ false).
  destruct (is_changed_after_load p row eq_refl) as [Hamount Hname].
  change (Plan.amount p) with (Plan.amount row) in Hamount.
  change (Plan.name p) with (Plan.name row) in Hname.
  rewrite Z.eqb_refl in Hamount. rewrite String.eqb_refl in Hname.
  rewrite Plan_save_kept_eq; [|exact Hid|exact Hamount].
  rewrite Hname, Model_save_Plan_eq.
  change (Plan.id p) with (Plan.id row). rewrite Hpk. cbn [negb]. cbv zeta.
  rewrite (plan_overflows_unchanged pk row p w) by done.
  rewrite (plan_write_unchanged pk row p w) by done.
  eexists. split; [reflexivity|]. cbn [stripe_log plans store_plan].
  assert (Hstored : Plan.set_loaded_values p None = Plan_set_available row false).
  { unfold p. destruct row. cbn in *. by subst. }
  rewrite Hstored. split; [reflexivity|]. split; [reflexivity|].
  split.
  - rewrite dom_insert_L. apply elem_of_dom_2 in Hrow.
    apply subseteq_union_1_L. by apply singleton_subseteq_l.
  - intros q Hq. apply PlanQuerySet_available_elem in Hq
      as (k & r & Hr & Hav & _ & ->).
    change (Plan.id (from_db r _ _)) with (Plan.id r).
    cbn [plans store_plan] in Hr. rewrite lookup_insert in Hr.
    case_decide as Hk.
    + injection Hr as <-. discriminate.
    + rewrite (Hkeyed k r Hr). congruence.
Qed.

Lemma Plan_delete_is_soft_witness :
  ∃ w', fst (Plan_delete Fixture.stripe_down Sample.slugify
               Sample.shortuuid_uuid 0
               (from_db Sample.plan3 Plan.field_names
                  (Plan_values Sample.plan3), Sample.world))
        = Return tt
        ∧ plans w' !! 1%nat = Some (Plan_set_available Sample.plan3 false)
        ∧ stripe_log w' = [].
Proof.
  destruct (Plan_delete_is_soft Fixture.stripe_down Sample.slugify
              Sample.shortuuid_uuid 0 1 Sample.plan3 Sample.world)
    as (w' & Hrun & Hplans & Hlog & _);
    [|reflexivity|reflexivity|reflexivity|].
  - intros k r Hr. destruct (decide (k = 1%nat)) as [->|Hk].
    + by injection Hr as <-.
    + unfold Sample.world in Hr. cbn [plans] in Hr.
      by rewrite lookup_singleton_ne in Hr.
  - exists w'. split; [by rewrite Hrun|]. split; [|exact Hlog].
    rewrite Hplans. apply lookup_insert_eq.
Defined.

(** ** Location codes *)

Lemma substring_length (m : nat) (s : string) :
  (String.length (substring 0 m s) ≤ m)%nat.
Proof.
  revert s. induction m as [|m IH]; intros [|c s]; cbn; try lia.
  specialize (IH s). lia.
Qed.

Lemma set_code_loop_unused shortuuid_uuid fuel :
  ∀ code w r w',
    (String.length code ≤ 6)%nat →
    set_code_loop shortuuid_uuid fuel code w = (Return r, w') →
    code_in_use r w = false
    ∧ (String.length r ≤ 6)%nat
    ∧ ∃ n, w' = with_uuid_draws n w.
Proof.
  induction fuel as [|fuel IH]; intros c w r w' Hlen;
    cbn [set_code_loop]; unfold bind at 1, gets at 1;
    destruct (code_in_use c w) eqn:Huse.
  - discriminate.
  - intros [= <- <-]. split; [done|]. split; [done|].
    exists 0%nat. by rewrite with_uuid_draws_0.
  - unfold bind at 1, uuid at 1. intros Hloop.
    apply IH in Hloop as (Hfree & Hr & n & ->); [|apply substring_length].
    split; [exact Hfree|]. split; [exact Hr|].
    exists (S n). apply with_uuid_draws_draw.
  - intros [= <- <-]. split; [done|]. split; [done|].
    exists 0%nat. by rewrite with_uuid_draws_0.
Qed.

Lemma set_code_eq shortuuid_uuid fuel force self w :
  force || String.eqb (Location.code self) "" = true →
  _set_code shortuuid_uuid fuel force (self, w)
  = match set_code_loop shortuuid_uuid fuel
            (substring 0 6 (shortuuid_uuid (uuid_draws w))) (draw_uuid w) with
    | (Return code, w1) => (Return tt, (Location_set_code self code, w1))
    | (Raise e, w1) => (Raise e, (self, w1))
    | (Diverge, w1) => (Diverge, (self, w1))
    end.
Proof.
  intros Hgen. unfold _set_code, bind at 1, gets at 1. cbn [fst].
  rewrite Hgen. unfold bind at 1, in_world at 1, uuid at 1. cbn [fst snd].
  unfold bind at 1, in_world at 1. cbn [fst snd].
  by destruct (set_code_loop _ _ _ _) as [[code|e|] w1].
Qed.

(** X23: [_set_code] leaves a location that has a code alone unless
    forced, drawing nothing. When it does set a code and returns, the new
    code has at most six characters, is used by no stored location, only
    the code of the instance has changed and the database tables are as
    before. If the first identifier drawn gives an unused code, that code
    is taken after a single draw. *)
Theorem set_code_fresh (shortuuid_uuid : nat → string) (fuel : nat)
    (force : bool) (self : Location.t) (w : World) :
  let result := _set_code shortuuid_uuid fuel force (self, w) in
  (force = false → Location.code self ≠ "" → result = (Return tt, (self, w)))
  ∧ (force || String.eqb (Location.code self) "" = true →
     fst result = Return tt →
     ∃ code, (snd result).1 = Location_set_code self code
             ∧ (String.length code ≤ 6)%nat
             ∧ code_in_use code w = false
             ∧ same_tables w (snd result).2)
  ∧ (force || String.eqb (Location.code self) "" = true →
     code_in_use (substring 0 6 (shortuuid_uuid (uuid_draws w))) w = false →
     result
     = (Return tt,
        (Location_set_code self
           (substring 0 6 (shortuuid_uuid (uuid_draws w))),
         draw_uuid w))).
Proof.
  cbv zeta. split; [|split].
  - intros -> Hcode. apply String.eqb_neq in Hcode.
    unfold _set_code, bind, gets. cbn [fst]. by rewrite Hcode.
  - intros Hgen. rewrite set_code_eq by done.
    destruct (set_code_loop shortuuid_uuid fuel _ (draw_uuid w))
      as [[code|e|] w1] eqn:Hloop; cbn [fst snd]; [|discriminate..].
    intros _.
    apply set_code_loop_unused in Hloop as (Hfree & Hlen & n & ->);
      [|apply substring_length].
    exists code. split; [done|]. split; [done|]. split; [exact Hfree|].
    by repeat split.
  - intros Hgen Hfree. rewrite set_code_eq by done.
    destruct fuel; cbn [set_code_loop]; unfold bind at 1, gets at 1;
      change (code_in_use ?c (draw_uuid w)) with (code_in_use c w);
      by rewrite Hfree.
Qed.

Lemma set_code_fresh_witness :
  _set_code Sample.shortuuid_uuid 0 false
    (Location.mk 9 "" "OUT" "Bakery" "9 Main St", Sample.world)
  = (Return tt,
     (Location.mk 9 "Q7XK2M" "OUT" "Bakery" "9 Main St",
      draw_uuid Sample.world))
  ∧ _set_code Sample.shortuuid_uuid 0 false (Sample.cafe, Sample.world)
    = (Return tt, (Sample.cafe, Sample.world)).
Proof.
  split.
  - apply (set_code_fresh Sample.shortuuid_uuid 0 false
             (Location.mk 9 "" "OUT" "Bakery" "9 Main St") Sample.world);
      reflexivity.
  - apply (set_code_fresh Sample.shortuuid_uuid 0 false Sample.cafe
             Sample.world); [reflexivity|discriminate].
Defined.
